(** * bot.py: a polling client for [eth_getBalance]

    A shallow embedding of [src/bot.py].  The script posts one JSON-RPC
    request, reads the [result] member of the answer, converts the
    hexadecimal wei amount to a float and prints one line; a [while True]
    loop repeats this with a ten second sleep in between.

    Conventions of the embedding:
    - a Python [str] is a [string]; literals of the script that hold
      emoji are their UTF-8 bytes.  The text handed to [int(_, 16)] is
      modelled for ASCII strings (for these CPython applies no Unicode
      normalisation before it scans the digits);
    - a Python [int] is a [Z], a Python [float] is a [spec_float] read at
      the binary64 parameters [prec = 53], [emax = 1024];
    - effects (network, clock, standard output, sleeping) are explicit: a
      computation maps a [world] to an outcome and a new [world], and the
      answers of the network are given by an oracle;
    - time passes in a request, for as long as the exchange takes, and in
      a sleep, for as long as was asked;
    - standard output is a console of the surroundings: it takes a text,
      or the write raises (the stream cannot encode the text, or is
      closed) and nothing is written. *)

From Stdlib Require Import ZArith NArith Bool List String Ascii Lia.
From Stdlib Require Import QArith Qabs Qpower Qfield.
From Stdlib Require Import Floats.SpecFloat.
From Stdlib Require Import DecimalString.
Import ListNotations.

Set Warnings "-register-all".

Local Open Scope string_scope.
Local Open Scope Z_scope.

(* ================================================================= *)
(** ** Python values and exceptions *)

Module Py.

(** The values [response.json()] can produce, and the literals of the
    script.  The items of a [PyDict] are listed in insertion order; the
    keys of a dict are pairwise distinct. *)
Inductive value :=
| PyNone
| PyBool (b : bool)
| PyInt (n : Z)
| PyFloat (f : spec_float)
| PyStr (s : string)
| PyList (items : list value)
| PyDict (items : list (string * value)).

(** The exception classes that occur.  [KeyboardInterrupt] and
    [SystemExit] derive from [BaseException] only; every other class
    derives from [Exception]. *)
Inductive exn_class :=
| ConnectionError | ReadTimeout | RequestException | JSONDecodeError
| AttributeError | TypeError | ValueError | OverflowError
| ZeroDivisionError | UnicodeEncodeError | BrokenPipeError | OtherException
| KeyboardInterrupt | SystemExit.

(** An exception object: its class and the text [str(e)] gives. *)
Record exn := mk_exn { exn_class_of : exn_class; exn_str : string }.

Definition isinstance_Exception (e : exn) : bool :=
  match exn_class_of e with
  | KeyboardInterrupt | SystemExit => false
  | _ => true
  end.

Inductive outcome (A : Type) :=
| Returns (a : A)
| Raises (e : exn).
Arguments Returns {A} a.
Arguments Raises {A} e.

(** [type(v).__name__] *)
Definition type_name (v : value) : string :=
  match v with
  | PyNone => "NoneType"
  | PyBool _ => "bool"
  | PyInt _ => "int"
  | PyFloat _ => "float"
  | PyStr _ => "str"
  | PyList _ => "list"
  | PyDict _ => "dict"
  end.

(** [bool(v)]: the truth value an [if] tests. *)
Definition truthy (v : value) : bool :=
  match v with
  | PyNone => false
  | PyBool b => b
  | PyInt n => negb (n =? 0)
  | PyFloat (S754_zero _) => false
  | PyFloat _ => true
  | PyStr s => negb (String.eqb s "")
  | PyList l => match l with [] => false | _ => true end
  | PyDict l => match l with [] => false | _ => true end
  end.

Fixpoint assoc (k : string) (items : list (string * value)) : option value :=
  match items with
  | [] => None
  | (k', v) :: rest => if String.eqb k k' then Some v else assoc k rest
  end.

(** [obj.get(key)]: only a dict has the method; a missing key gives
    [None]. *)
Definition get (obj : value) (key : string) : outcome value :=
  match obj with
  | PyDict items =>
      match assoc key items with
      | Some v => Returns v
      | None => Returns PyNone
      end
  | _ =>
      Raises (mk_exn AttributeError
                ("'" ++ type_name obj ++ "' object has no attribute 'get'"))
  end.

(* ----------------------------------------------------------------- *)
(** *** Characters *)

Definition code (c : ascii) : Z := Z.of_N (N_of_ascii c).

Definition is_ascii_char (c : ascii) : bool := code c <? 128.

Definition is_ascii (s : string) : bool :=
  forallb is_ascii_char (list_ascii_of_string s).

(** [Py_ISSPACE]: tab, line feed, vertical tab, form feed, carriage
    return and space. *)
Definition Py_ISSPACE (c : ascii) : bool :=
  ((9 <=? code c) && (code c <=? 13)) || (code c =? 32).

(** [_PyLong_DigitValue]: the value of a digit in bases up to 36. *)
Definition digit_value (c : ascii) : option Z :=
  let n := code c in
  if (48 <=? n) && (n <=? 57) then Some (n - 48)
  else if (97 <=? n) && (n <=? 122) then Some (n - 87)
  else if (65 <=? n) && (n <=? 90) then Some (n - 55)
  else None.

Definition hex_digit (c : ascii) : option Z :=
  match digit_value c with
  | Some d => if d <? 16 then Some d else None
  | None => None
  end.

Definition underscore : ascii := "_"%char.

(* ----------------------------------------------------------------- *)
(** *** [int(s, 16)] *)

Fixpoint skip_space (s : list ascii) : list ascii :=
  match s with
  | c :: rest => if Py_ISSPACE c then skip_space rest else s
  | [] => []
  end.

(** An optional sign; [true] stands for a minus. *)
Definition read_sign (s : list ascii) : bool * list ascii :=
  match s with
  | c :: rest =>
      if Ascii.eqb c "+" then (false, rest)
      else if Ascii.eqb c "-" then (true, rest)
      else (false, s)
  | [] => (false, s)
  end.

(** An optional [0x] or [0X], after which one underscore is allowed. *)
Definition skip_prefix16 (s : list ascii) : list ascii :=
  match s with
  | z :: x :: rest =>
      if Ascii.eqb z "0" && (Ascii.eqb x "x" || Ascii.eqb x "X") then
        match rest with
        | u :: rest' => if Ascii.eqb u underscore then rest' else rest
        | [] => rest
        end
      else s
  | _ => s
  end.

(** The digit scan: digits with single underscores between them.  The
    result is the value read, the number of digits and the text left;
    [None] when two underscores meet or the scan ends on one. *)
Fixpoint scan_digits (s : list ascii) (prev_underscore : bool)
         (digits : nat) (acc : Z) : option (Z * nat * list ascii) :=
  let stop := if prev_underscore then None else Some (acc, digits, s) in
  match s with
  | c :: rest =>
      if Ascii.eqb c underscore then
        if prev_underscore then None else scan_digits rest true digits acc
      else
        match hex_digit c with
        | Some d => scan_digits rest false (S digits) (16 * acc + d)
        | None => stop
        end
  | [] => stop
  end.

(** [PyLong_FromString(s, &end, 16)] followed by the test that all of the
    text was read; [None] stands for the [ValueError]. *)
Definition parse_int16 (s : string) : option Z :=
  let s0 := skip_space (list_ascii_of_string s) in
  let '(minus, s1) := read_sign s0 in
  let s2 := skip_prefix16 s1 in
  match s2 with
  | c :: _ => if Ascii.eqb c underscore then None else
      match scan_digits s2 false 0%nat 0 with
      | Some (n, digits, rest) =>
          match digits, skip_space rest with
          | O, _ => None
          | _, [] => Some (if minus then - n else n)
          | _, _ :: _ => None
          end
      | None => None
      end
  | [] => None
  end.

(* ----------------------------------------------------------------- *)
(** *** [repr] and the conversion of a value *)

Definition backslash : ascii := ascii_of_nat 92.
Definition squote : ascii := ascii_of_nat 39.
Definition dquote : ascii := ascii_of_nat 34.

Definition hex_char (d : Z) : ascii :=
  if d <? 10 then ascii_of_N (Z.to_N (48 + d)) else ascii_of_N (Z.to_N (87 + d)).

Definition has_char (c : ascii) (s : string) : bool :=
  existsb (Ascii.eqb c) (list_ascii_of_string s).

(** The quote [repr] chooses: a double quote when the text holds a single
    quote and no double quote. *)
Definition repr_quote (s : string) : ascii :=
  if has_char squote s && negb (has_char dquote s) then dquote else squote.

Definition repr_char (quote c : ascii) : string :=
  let one (x : ascii) := String x EmptyString in
  if Ascii.eqb c quote || Ascii.eqb c backslash then String backslash (one c)
  else if code c =? 9 then String backslash "t"
  else if code c =? 10 then String backslash "n"
  else if code c =? 13 then String backslash "r"
  else if (code c <? 32) || (code c =? 127) then
    String backslash (String "x" (String (hex_char (code c / 16))
                                         (one (hex_char (code c mod 16)))))
  else one c.

(** [repr(s)] of ASCII text. *)
Definition repr (s : string) : string :=
  let q := repr_quote s in
  String q (String.concat "" (map (repr_char q) (list_ascii_of_string s))
            ++ String q EmptyString).

(** [int(v, 16)]: only text can be converted with an explicit base; the
    message of the [ValueError] shows at most 200 characters of the
    [repr]. *)
Definition int16 (v : value) : outcome Z :=
  match v with
  | PyStr s =>
      match parse_int16 s with
      | Some n => Returns n
      | None =>
          Raises (mk_exn ValueError
                    ("invalid literal for int() with base 16: "
                     ++ substring 0 200 (repr s)))
      end
  | _ =>
      Raises (mk_exn TypeError
                "int() can't convert non-string with explicit base")
  end.

(* ----------------------------------------------------------------- *)
(** *** Floats *)

Definition prec : Z := 53.
Definition emax : Z := 1024.

Definition float_of_int (n : Z) : spec_float :=
  match n with
  | Z0 => S754_zero false
  | Zpos p => S754_finite false p 0
  | Zneg p => S754_finite true p 0
  end.

(** [a / b] on two ints: the quotient rounded once to the nearest
    binary64 float, ties to even; a result beyond the largest float
    raises [OverflowError]. *)
Definition overflow : exn :=
  mk_exn OverflowError "integer division result too large for a float".

Definition true_divide (a b : Z) : outcome spec_float :=
  if b =? 0 then Raises (mk_exn ZeroDivisionError "division by zero")
  else
    match SFdiv prec emax (float_of_int a) (float_of_int b) with
    | S754_infinity _ => Raises overflow
    | f => Returns f
    end.

(** The number a float stands for, and the weight of its last place. *)
Definition float_value (f : spec_float) : Q :=
  match f with
  | S754_finite s m e => (inject_Z (cond_Zopp s (Zpos m)) * Qpower 2 e)%Q
  | _ => 0%Q
  end.

Definition ulp (f : spec_float) : Q :=
  match f with
  | S754_finite _ _ e => Qpower 2 e
  | _ => Qpower 2 (-1074)
  end.

Definition sign_bit (f : spec_float) : bool :=
  match f with
  | S754_zero s | S754_infinity s | S754_finite s _ _ => s
  | S754_nan => false
  end.

Definition is_finite (f : spec_float) : bool :=
  match f with
  | S754_zero _ | S754_finite _ _ _ => true
  | _ => false
  end.

(** [a // b] rounded to the nearest integer, ties to even, for
    [0 <= a] and [0 < b]. *)
Definition round_half_even_div (a b : Z) : Z :=
  let q := a / b in
  match 2 * (a mod b) ?= b with
  | Lt => q
  | Gt => q + 1
  | Eq => if Z.even q then q else q + 1
  end.

(** [m * 2^e * 10^5] rounded to an integer. *)
Definition scaled5 (m : positive) (e : Z) : Z :=
  if 0 <=? e then Zpos m * 2 ^ e * 10 ^ 5
  else round_half_even_div (Zpos m * 10 ^ 5) (2 ^ (- e)).

Definition digit_char (d : Z) : ascii := ascii_of_N (Z.to_N (48 + d)).

Definition decimal (n : Z) : string :=
  NilZero.string_of_uint (N.to_uint (Z.to_N n)).

Definition pad5 (k : Z) : string :=
  String (digit_char (k / 10000 mod 10))
 (String (digit_char (k / 1000 mod 10))
 (String (digit_char (k / 100 mod 10))
 (String (digit_char (k / 10 mod 10))
 (String (digit_char (k mod 10)) EmptyString)))).

Definition fixed5 (minus : bool) (n : Z) : string :=
  (if minus then "-" else "") ++ decimal (n / 10 ^ 5) ++ "." ++ pad5 (n mod 10 ^ 5).

(** [format(f, '.5f')]: the exact value of the float rounded to five
    decimals, ties to even. *)
Definition format_5f (f : spec_float) : string :=
  match f with
  | S754_zero s => fixed5 s 0
  | S754_finite s m e => fixed5 s (scaled5 m e)
  | S754_infinity s => if s then "-inf" else "inf"
  | S754_nan => "nan"
  end.

(* ----------------------------------------------------------------- *)
(** *** [time] *)

Record struct_time := { tm_hour : Z; tm_min : Z; tm_sec : Z }.

Definition two_digits (n : Z) : string :=
  String (digit_char (n / 10 mod 10)) (String (digit_char (n mod 10)) EmptyString).

(** The local time of day at [ms] milliseconds on the clock, for a zone
    [offset] seconds ahead of it. *)
Definition struct_time_of (offset ms : Z) : struct_time :=
  let s := (ms / 1000 + offset) mod 86400 in
  {| tm_hour := s / 3600; tm_min := s / 60 mod 60; tm_sec := s mod 60 |}.

(** [time.strftime('%H:%M:%S', t)] *)
Definition strftime_HMS (t : struct_time) : string :=
  two_digits (tm_hour t) ++ ":" ++ two_digits (tm_min t) ++ ":" ++ two_digits (tm_sec t).

(* ----------------------------------------------------------------- *)
(** *** Hexadecimal quantities *)

Definition is_hex_digit (c : ascii) : bool :=
  match hex_digit c with Some _ => true | None => false end.

(** The number a row of hexadecimal digits denotes, most significant
    digit first, continuing from [acc]. *)
Definition hex_number_from (acc : Z) (ds : list ascii) : Z :=
  fold_left (fun n c => 16 * n + match hex_digit c with Some d => d | None => 0 end)
            ds acc.

Definition hex_number (ds : list ascii) : Z := hex_number_from 0 ds.

(** The text of a quantity: [0x] followed by the digits. *)
Definition quantity (ds : list ascii) : string :=
  String "0" (String "x" (string_of_list_ascii ds)).

(* ----------------------------------------------------------------- *)
(** *** Shapes of printed text *)


Definition is_digit (c : ascii) : bool := (48 <=? code c) && (code c <=? 57).






Definition drop_minus (cs : list ascii) : list ascii :=
  match cs with
  | c :: rest => if Ascii.eqb c "-" then rest else cs
  | [] => cs
  end.



(* ----------------------------------------------------------------- *)
(** *** Notions used to reason about rounding *)

(** [located mrs N D]: the record places the rational [N / D].  Its
    mantissa is the integer part, its round bit tells whether the
    fraction reaches one half, its sticky bit whether the fraction is
    neither zero nor one half. *)
Definition located (mrs : shr_record) (N D : Z) : Prop :=
  shr_m mrs = N / D /\
  shr_r mrs = (D <=? 2 * (N mod D)) /\
  shr_s mrs = negb ((2 * N) mod D =? 0).

(** The float [binary_round_aux] builds from a rounded mantissa. *)
Definition assemble (sx : bool) (m e : Z) : spec_float :=
  match m with
  | Z0 => S754_zero sx
  | Zpos p => if e <=? emax - prec then S754_finite sx p e else S754_infinity sx
  | Zneg _ => S754_nan
  end.

(** The exponent at which [SFdiv] computes the integer quotient of two
    mantissas of exponent 0. *)
Definition div_exponent (a b : positive) : Z :=
  Z.min (fexp prec emax (Zdigits2 (Zpos a) - Zdigits2 (Zpos b))) 0.

End Py.

(* ================================================================= *)
(** ** The script *)

Module Bot.
Import Py.

(** What [requests.post] hands back: the status line and what
    [response.json()] will give, a decoded body or the decoder's
    exception. *)
Record response := { status_code : Z; json : outcome value }.

(** One exchange with the node: the exception [requests.post] raises or
    the response it returns, and the time the call took, in
    milliseconds. *)
Record exchange := { answer : outcome response; took : Z }.

(** The surroundings of the process: what the network does at the k-th
    request (counted from 0), the offset of local time from the clock,
    in seconds, and what standard output does with a text when k texts
    were written before it: [None] when it takes the text, the
    exception of the write otherwise. *)
Record environment := {
  network : nat -> string -> value -> Z -> exchange;
  utc_offset : Z;
  console : nat -> string -> option exn
}.

Inductive event :=
| Posted (url : string) (payload : value) (timeout : Z)
| Printed (text : string)
| Slept (secs : Z).

(** The state of the process: the clock in milliseconds, the number of
    requests sent, and what was done so far, each event with the time at
    which it began. *)
Record world := { now : Z; sent : nat; log : list (Z * event) }.

Definition record (ev : event) (w : world) : list (Z * event) :=
  log w ++ [(now w, ev)].

(** The texts written by [print], oldest first; each is followed by a
    line break on the stream. *)
Definition stdout (w : world) : list string :=
  flat_map (fun te => match snd te with Printed s => [s] | _ => [] end) (log w).

(** The world once [text] has been written to standard output. *)
Definition written (text : string) (w : world) : world :=
  {| now := now w; sent := sent w; log := record (Printed text) w |}.

(** The times at which the requests were begun. *)
Definition poll_starts (w : world) : list Z :=
  flat_map (fun te => match snd te with Posted _ _ _ => [fst te] | _ => [] end)
           (log w).

Definition M (A : Type) : Type := world -> outcome A * world.

Definition ret {A} (a : A) : M A := fun w => (Returns a, w).

Definition bind {A B} (m : M A) (k : A -> M B) : M B :=
  fun w =>
    match m w with
    | (Returns a, w') => k a w'
    | (Raises e, w') => (Raises e, w')
    end.

Definition lift {A} (o : outcome A) : M A := fun w => (o, w).

(** [try: body except Exception as e: handler(e)] *)
Definition try_except_Exception {A} (body : M A) (handler : exn -> M A) : M A :=
  fun w =>
    match body w with
    | (Returns a, w') => (Returns a, w')
    | (Raises e, w') =>
        if isinstance_Exception e then handler e w' else (Raises e, w')
    end.

Notation "x <- m ;; k" := (bind m (fun x => k))
  (at level 61, m at next level, right associativity).
Notation "m ;; k" := (bind m (fun _ => k))
  (at level 61, right associativity).

Definition RPC_URL : string := "https://polygon-rpc.com".
Definition ADDRESS : string := "0x1efD4DB8b7bFe247C75323dAE62B95f24b1cBAAfU".

Definition payload : value :=
  PyDict [("jsonrpc", PyStr "2.0");
          ("method", PyStr "eth_getBalance");
          ("params", PyList [PyStr ADDRESS; PyStr "latest"]);
          ("id", PyInt 1)].

Section Process.

Variable E : environment.

(** [print(text)]: the console takes the text, or the write raises and
    nothing is written. *)
Definition print (text : string) : M unit :=
  fun w =>
    match console E (List.length (stdout w)) text with
    | None => (Returns tt, written text w)
    | Some e => (Raises e, w)
    end.

(** [requests.post(url, json=payload, timeout=timeout)] *)
Definition requests_post (url : string) (body : value) (timeout : Z) : M response :=
  fun w =>
    let x := network E (sent w) url body timeout in
    (answer x,
     {| now := now w + took x; sent := S (sent w);
        log := record (Posted url body timeout) w |}).

(** [time.sleep(secs)]: the clock moves on by [secs] seconds. *)
Definition time_sleep (secs : Z) : M unit :=
  fun w => (Returns tt,
            {| now := now w + 1000 * secs; sent := sent w;
               log := record (Slept secs) w |}).

(** [time.localtime()] *)
Definition localtime : M struct_time :=
  fun w => (Returns (struct_time_of (utc_offset E) (now w)), w).

(** [time.strftime('%H:%M:%S')] *)
Definition time_strftime_HMS : M string :=
  t <- localtime ;; ret (strftime_HMS t).

Definition success_line (stamp amount : string) : string :=
  "✅ [" ++ stamp ++ "] Saldo: " ++ amount ++ " ETH/MATIC".

Definition empty_line : string := "❌ RPC merespon tapi data kosong.".

Definition failure_line (description : string) : string :=
  "📡 Koneksi Gagal: " ++ description.

(** The body of the [try] statement of [get_balance]. *)
Definition get_balance_try : M unit :=
  response <- requests_post RPC_URL payload 10 ;;
  body <- lift (json response) ;;
  result <- lift (get body "result") ;;
  if truthy result then
    wei <- lift (int16 result) ;;
    balance <- lift (true_divide wei (10 ^ 18)) ;;
    stamp <- time_strftime_HMS ;;
    print (success_line stamp (format_5f balance))
  else
    print empty_line.

Definition get_balance : M unit :=
  try_except_Exception get_balance_try
    (fun e => print (failure_line (exn_str e))).

Definition banner : string := "🚀 Bot Monitoring Aktif".

(** How the process stands after some turns of the loop: still in the
    loop, or ended by an exception nothing caught. *)
Inductive status := Running | Died (e : exn).

(** [n] turns of [while True: get_balance(); time.sleep(10)].  The loop
    has no [break] and its test is the constant [True]: it is left only
    by an exception. *)
Fixpoint while_True (n : nat) (w : world) : status * world :=
  match n with
  | O => (Running, w)
  | S k =>
      match (get_balance ;; time_sleep 10) w with
      | (Returns _, w') => while_True k w'
      | (Raises e, w') => (Died e, w')
      end
  end.

(** The [__main__] block, run for [n] turns of its loop. *)
Definition main (n : nat) (w : world) : status * world :=
  match print banner w with
  | (Returns _, w') => while_True n w'
  | (Raises e, w') => (Died e, w')
  end.

End Process.

(** The process at its start. *)
Definition boot (t0 : Z) : world := {| now := t0; sent := 0%nat; log := [] |}.

(* ----------------------------------------------------------------- *)
(** *** Notions used to state the properties *)

(** The exchange the next request of [get_balance] will have. *)
Definition exchange_at (E : environment) (w : world) : exchange :=
  network E (sent w) RPC_URL payload 10.

(** The world once that request has been answered. *)
Definition after_request (E : environment) (w : world) : world :=
  snd (requests_post E RPC_URL payload 10 w).

(** The time of day [time.strftime] gives in a world. *)
Definition stamp (E : environment) (w : world) : string :=
  strftime_HMS (struct_time_of (utc_offset E) (now w)).

(** What [response.json().get('result')] evaluates to for an exchange. *)
Definition result_field (x : exchange) : outcome value :=
  match answer x with
  | Returns r =>
      match json r with
      | Returns body => get body "result"
      | Raises e => Raises e
      end
  | Raises e => Raises e
  end.

(** [get_balance] returns normally, having sent one request and printed
    exactly [line]. *)
Definition says (E : environment) (w : world) (line : string) : Prop :=
  get_balance E w = (Returns tt, written line (after_request E w)).

(** The exceptions the library hands over in an exchange, from
    [requests.post] or from [response.json()]. *)
Definition delivered (x : exchange) : option exn :=
  match answer x with
  | Raises e => Some e
  | Returns r => match json r with Raises e => Some e | Returns _ => None end
  end.

(** Every exception of the exchange is an instance of [Exception]: a
    failure of the transport or of the decoder, not an interrupt. *)
Definition catchable (x : exchange) : bool :=
  match delivered x with
  | Some e => isinstance_Exception e
  | None => true
  end.

Definition never_interrupted (E : environment) : Prop :=
  forall k url body timeout, catchable (network E k url body timeout) = true.

(** Standard output accepts every text written to it. *)
Definition stdout_works (E : environment) : Prop :=
  forall k text, console E k text = None.

(** The time at which the k-th request begins when the process starts
    at [t0]: each turn lasts as long as its exchange took, plus the
    sleep. *)
Fixpoint start_time (E : environment) (t0 : Z) (k : nat) : Z :=
  match k with
  | O => t0
  | S k' => start_time E t0 k' + took (network E k' RPC_URL payload 10) + 1000 * 10
  end.

(** The float is the quotient itself, not a neighbour of it. *)
Definition exact_quotient (f : spec_float) (n d : Z) : Prop :=
  (float_value f == inject_Z n / inject_Z d)%Q.

(* ----------------------------------------------------------------- *)
(** *** Sample surroundings *)

Definition reply (result : value) : value :=
  PyDict [("jsonrpc", PyStr "2.0"); ("id", PyInt 1); ("result", result)].

(** A node that answers every request with [body], after [ms]
    milliseconds, seven hours ahead of the clock. *)
Definition node_sends (body : value) (ms : Z) : environment :=
  {| network := fun _ _ _ _ =>
       {| answer := Returns {| status_code := 200; json := Returns body |};
          took := ms |};
     utc_offset := 7 * 3600;
     console := fun _ _ => None |}.

(** A network on which every request fails with [e] after [ms]
    milliseconds. *)
Definition node_fails (e : exn) (ms : Z) : environment :=
  {| network := fun _ _ _ _ => {| answer := Raises e; took := ms |};
     utc_offset := 7 * 3600;
     console := fun _ _ => None |}.


(** A node that answers with [body] under the HTTP status [status]. *)
Definition node_sends_status (status : Z) (body : value) (ms : Z) : environment :=
  {| network := fun _ _ _ _ =>
       {| answer := Returns {| status_code := status; json := Returns body |};
          took := ms |};
     utc_offset := 7 * 3600;
     console := fun _ _ => None |}.

(** A node that answers the first [k] requests with [body]; during the
    next one the user interrupts the process. *)
Definition node_interrupted_at (k : nat) (body : value) (ms : Z) : environment :=
  {| network := fun j _ _ _ =>
       if Nat.ltb j k then
         {| answer := Returns {| status_code := 200; json := Returns body |};
            took := ms |}
       else
         {| answer := Raises (mk_exn KeyboardInterrupt ""); took := ms |};
     utc_offset := 7 * 3600;
     console := fun _ _ => None |}.

(** The same surroundings with another console. *)
Definition with_console (c : nat -> string -> option exn) (E : environment)
  : environment :=
  {| network := network E; utc_offset := utc_offset E; console := c |}.

(** A console whose encoding is ASCII: a text with any other character
    makes the write raise [e]. *)
Definition ascii_console (e : exn) : nat -> string -> option exn :=
  fun _ text => if is_ascii text then None else Some e.

(** A console that takes nothing: every write raises [e]. *)
Definition closed_console (e : exn) : nat -> string -> option exn :=
  fun _ _ => Some e.

Definition broken_pipe : exn := mk_exn BrokenPipeError "[Errno 32] Broken pipe".


Definition cannot_encode_banner : exn :=
  mk_exn UnicodeEncodeError
    "'ascii' codec can't encode character '\U0001f680' in position 0: ordinal not in range(128)".

(** The events of the turns that printed [lines]. *)
Definition turns (lines : list string) : list event :=
  flat_map (fun line => [Posted RPC_URL payload 10; Printed line; Slept 10]) lines.

End Bot.

(* ================================================================= *)
(** ** Rounding: what [SFdiv] computes on two integers *)

Module Rounding.
Import Py.

Lemma digits2_pos_bounds (p : positive) :
  2 ^ (Zpos (digits2_pos p) - 1) <= Zpos p < 2 ^ Zpos (digits2_pos p).
Proof.
  induction p as [p IH | p IH |]; cbn [digits2_pos].
  - rewrite Pos2Z.inj_succ.
    replace (Z.succ (Zpos (digits2_pos p)) - 1) with (Z.succ (Zpos (digits2_pos p) - 1)) by lia.
    rewrite !Z.pow_succ_r by lia. lia.
  - rewrite Pos2Z.inj_succ.
    replace (Z.succ (Zpos (digits2_pos p)) - 1) with (Z.succ (Zpos (digits2_pos p) - 1)) by lia.
    rewrite !Z.pow_succ_r by lia. lia.
  - cbn. lia.
Qed.

Lemma Zdigits2_nonneg (x : Z) : 0 <= Zdigits2 x.
Proof. destruct x; cbn; lia. Qed.

Lemma Zdigits2_pos (x : Z) : 0 < x -> 1 <= Zdigits2 x.
Proof. destruct x; cbn; lia. Qed.

Lemma Zdigits2_bounds (x : Z) :
  0 < x -> 2 ^ (Zdigits2 x - 1) <= x < 2 ^ Zdigits2 x.
Proof. destruct x; try lia. intros _. apply digits2_pos_bounds. Qed.

Lemma Zdigits2_upper (x j : Z) : 0 <= j -> 0 <= x < 2 ^ j -> Zdigits2 x <= j.
Proof.
  intros Hj [H0 Hx].
  destruct (Z.eq_dec x 0) as [-> | Hne]; [cbn; lia |].
  destruct (Zdigits2_bounds x ltac:(lia)) as [Hlo _].
  destruct (Z_le_gt_dec (Zdigits2 x) j) as [|Hgt]; [assumption | exfalso].
  assert (2 ^ j <= 2 ^ (Zdigits2 x - 1)) by (apply Z.pow_le_mono_r; lia).
  lia.
Qed.

Lemma Zdigits2_lower (x j : Z) : 0 <= j -> 2 ^ j <= x -> j + 1 <= Zdigits2 x.
Proof.
  intros Hj Hx.
  assert (0 < 2 ^ j) by (apply Z.pow_pos_nonneg; lia).
  destruct (Zdigits2_bounds x ltac:(lia)) as [_ Hhi].
  destruct (Z_le_gt_dec (j + 1) (Zdigits2 x)) as [|Hgt]; [assumption | exfalso].
  assert (2 ^ Zdigits2 x <= 2 ^ j) by (apply Z.pow_le_mono_r; lia).
  lia.
Qed.

Lemma shr_1_nonneg (m : Z) (r s : bool) :
  0 <= m ->
  shr_1 (Build_shr_record m r s) = Build_shr_record (m / 2) (Z.odd m) (r || s).
Proof.
  intros Hm. destruct m as [| p | p]; [reflexivity | | lia].
  destruct p as [p | p |]; cbn [shr_1 Z.odd].
  - f_equal. rewrite Pos2Z.inj_xI. apply Z.div_unique with 1; lia.
  - f_equal. rewrite Pos2Z.inj_xO. apply Z.div_unique with 0; lia.
  - reflexivity.
Qed.

Lemma no_multiple_inside (D t x : Z) : D * t = x -> 0 < x < D -> False.
Proof.
  intros E [H0 H1].
  destruct (Z_le_gt_dec t 0).
  - assert (D * t <= 0) by (apply Z.mul_nonneg_nonpos; lia). lia.
  - assert (D * 1 <= D * t) by (apply Z.mul_le_mono_nonneg_l; lia). lia.
Qed.

Lemma located_shr_1 (mrs : shr_record) (N D : Z) :
  0 <= N -> 0 < D -> located mrs N D -> located (shr_1 mrs) N (2 * D).
Proof.
  intros HN HD (Hm & Hr & Hs). destruct mrs as [m r s]. cbn [shr_m shr_r shr_s] in Hm, Hr, Hs.
  assert (Hm0 : 0 <= m) by (subst m; apply Z.div_pos; lia).
  rewrite shr_1_nonneg by assumption. unfold located; cbn [shr_m shr_r shr_s].
  pose proof (Z.div_mod N D ltac:(lia)) as EN.
  pose proof (Z.mod_pos_bound N D HD) as BN.
  pose proof (Z.div_mod m 2 ltac:(lia)) as Em.
  pose proof (Z.mod_pos_bound m 2 ltac:(lia)) as Bm.
  pose proof (Z.div_mod (2 * N) D ltac:(lia)) as EN2.
  pose proof (Z.mod_pos_bound (2 * N) D HD) as BN2.
  rewrite Zodd_mod.
  set (r0 := N mod D) in *. set (q2 := m / 2) in *. set (b := m mod 2) in *.
  set (r2 := (2 * N) mod D) in *. set (q' := (2 * N) / D) in *.
  assert (Ediv : N / (2 * D) = q2).
  { symmetry. apply Z.div_unique with (D * b + r0); nia. }
  assert (Emod : N mod (2 * D) = D * b + r0).
  { symmetry. apply Z.mod_unique with q2; nia. }
  assert (E2 : (2 * N) mod (2 * D) = 2 * r0).
  { symmetry. apply Z.mod_unique with (N / D); nia. }
  rewrite Ediv, Emod, E2, Hr, Hs.
  repeat split.
  - destruct (Z.eqb_spec b 1), (Z.leb_spec (2 * D) (2 * (D * b + r0))); trivial; nia.
  - destruct (Z.leb_spec D (2 * r0)), (Z.eqb_spec r2 0), (Z.eqb_spec (2 * r0) 0);
      cbn; trivial; try lia.
    + exfalso. apply (no_multiple_inside D (q' - 2 * (N / D)) (2 * r0)); lia.
    + exfalso. apply (no_multiple_inside D (2 * (N / D) - q') r2); lia.
Qed.

Lemma iter_pos_shr_1_located (p : positive) :
  forall (mrs : shr_record) (N D : Z),
    0 <= N -> 0 < D -> located mrs N D ->
    located (iter_pos shr_1 p mrs) N (2 ^ Zpos p * D).
Proof.
  induction p as [p IH | p IH |]; intros mrs N D HN HD H; cbn [iter_pos].
  - assert (0 < 2 ^ Zpos p) by (apply Z.pow_pos_nonneg; lia).
    replace (Zpos p~1) with (Zpos p + (Zpos p + 1)) by lia.
    rewrite !Z.pow_add_r, Z.pow_1_r, <- !Z.mul_assoc by lia.
    apply IH; [lia | nia |]. apply IH; [lia | lia |]. now apply located_shr_1.
  - assert (0 < 2 ^ Zpos p) by (apply Z.pow_pos_nonneg; lia).
    replace (Zpos p~0) with (Zpos p + Zpos p) by lia.
    rewrite !Z.pow_add_r, <- !Z.mul_assoc by lia.
    apply IH; [lia | nia |]. now apply IH.
  - rewrite Z.pow_1_r. now apply located_shr_1.
Qed.

Lemma new_location_cases (D r : Z) :
  0 < D -> 0 <= r < D ->
  new_location D r = if r =? 0 then loc_Exact else loc_Inexact (2 * r ?= D).
Proof.
  intros HD Hr. unfold new_location, new_location_even, new_location_odd.
  destruct (Z.even D) eqn:Ev; [reflexivity |].
  destruct (r =? 0); [reflexivity |]. f_equal.
  assert (Od : Z.odd D = true) by (rewrite <- Z.negb_even, Ev; reflexivity).
  apply Z.odd_spec in Od. destruct Od as [k Hk].
  destruct (Z.compare_spec (2 * r + 1) D), (Z.compare_spec (2 * r) D);
    trivial; lia.
Qed.

Lemma located_of_division (N D : Z) :
  0 <= N -> 0 < D ->
  located (shr_record_of_loc (N / D) (new_location D (N mod D))) N D.
Proof.
  intros HN HD.
  pose proof (Z.div_mod N D ltac:(lia)) as EN.
  pose proof (Z.mod_pos_bound N D HD) as BN.
  pose proof (Z.div_mod (2 * N) D ltac:(lia)) as EN2.
  pose proof (Z.mod_pos_bound (2 * N) D HD) as BN2.
  rewrite new_location_cases by assumption. unfold located.
  set (r0 := N mod D) in *. set (r2 := (2 * N) mod D) in *.
  set (q' := (2 * N) / D) in *.
  assert (Hq : r2 = 0 -> 2 * r0 = 0 \/ 2 * r0 = D).
  { intros E0.
    destruct (Z.eq_dec (2 * r0) 0) as [|Hn]; [now left | right].
    destruct (Z_lt_le_dec (2 * r0) D).
    - exfalso. apply (no_multiple_inside D (q' - 2 * (N / D)) (2 * r0)); lia.
    - destruct (Z.eq_dec (2 * r0) D); [assumption | exfalso].
      apply (no_multiple_inside D (q' - 2 * (N / D) - 1) (2 * r0 - D)); lia. }
  assert (Hq' : 2 * r0 = 0 \/ 2 * r0 = D -> r2 = 0).
  { intros [E0 | E0].
    - destruct (Z.eq_dec r2 0); [assumption | exfalso].
      apply (no_multiple_inside D (2 * (N / D) - q') r2); lia.
    - destruct (Z.eq_dec r2 0); [assumption | exfalso].
      apply (no_multiple_inside D (2 * (N / D) + 1 - q') r2); lia. }
  destruct (Z.eqb_spec r0 0) as [E0 | E0].
  - cbn [shr_record_of_loc shr_m shr_r shr_s]. repeat split.
    + destruct (Z.leb_spec D (2 * r0)); trivial; lia.
    + destruct (Z.eqb_spec r2 0) as [|Hn]; trivial. exfalso. apply Hn, Hq'. lia.
  - destruct (Z.compare_spec (2 * r0) D) as [Ec | Ec | Ec];
      cbn [shr_record_of_loc shr_m shr_r shr_s]; repeat split;
      destruct (Z.leb_spec D (2 * r0)), (Z.eqb_spec r2 0); trivial; try lia;
      exfalso; first [ assert (r2 = 0) by (apply Hq'; lia); lia
                     | destruct Hq; lia ].
Qed.

(** Rounding to nearest, ties to even, lands within one half of the
    value. *)
Lemma round_nearest_even_located (mrs : shr_record) (N D : Z) :
  0 <= N -> 0 < D -> located mrs N D ->
  let M := round_nearest_even (shr_m mrs) (loc_of_shr_record mrs) in
  2 * Z.abs (M * D - N) <= D /\ N / D <= M <= N / D + 1.
Proof.
  intros HN HD (Hm & Hr & Hs). destruct mrs as [m r s].
  cbn [shr_m shr_r shr_s] in *.
  pose proof (Z.div_mod N D ltac:(lia)) as EN.
  pose proof (Z.mod_pos_bound N D HD) as BN.
  pose proof (Z.div_mod (2 * N) D ltac:(lia)) as EN2.
  pose proof (Z.mod_pos_bound (2 * N) D HD) as BN2.
  set (r0 := N mod D) in *. set (r2 := (2 * N) mod D) in *.
  set (q' := (2 * N) / D) in *.
  assert (Htie : D <= 2 * r0 -> r2 = 0 -> 2 * r0 = D).
  { intros Hge E0. destruct (Z.eq_dec (2 * r0) D); [assumption | exfalso].
    apply (no_multiple_inside D (q' - 2 * (N / D) - 1) (2 * r0 - D)); lia. }
  subst m.
  destruct (Z.leb_spec D (2 * r0)) as [Hge | Hlt]; subst r;
    destruct (Z.eqb_spec r2 0) as [E0 | E0]; subst s;
    cbn [negb loc_of_shr_record round_nearest_even].
  - specialize (Htie Hge E0).
    destruct (Z.even (N / D)); split; try lia.
  - split; lia.
  - split; lia.
  - split; lia.
Qed.

Lemma fexp_eq (x : Z) : fexp prec emax x = Z.max (x - 53) (-1074).
Proof. reflexivity. Qed.

Lemma pow2_pos (k : Z) : 0 <= k -> 0 < 2 ^ k.
Proof. intros. apply Z.pow_pos_nonneg; lia. Qed.

Lemma Zdigits2_div_pow2 (q k : Z) :
  0 <= q -> 0 <= k -> Zdigits2 (q / 2 ^ k) = Z.max (Zdigits2 q - k) 0.
Proof.
  intros Hq Hk. pose proof (pow2_pos k Hk) as Hp.
  pose proof (Zdigits2_nonneg q) as Hd.
  destruct (Z_lt_le_dec q (2 ^ k)) as [Hlt | Hge].
  - rewrite Z.div_small by lia. cbn [Zdigits2].
    pose proof (Zdigits2_upper q k Hk ltac:(lia)). lia.
  - pose proof (Zdigits2_lower q k Hk Hge) as Hlow.
    destruct (Zdigits2_bounds q ltac:(lia)) as [Blo Bhi].
    set (d := Zdigits2 q) in *.
    assert (E1 : 2 ^ (d - 1) = 2 ^ (d - 1 - k) * 2 ^ k)
      by (rewrite <- Z.pow_add_r by lia; f_equal; lia).
    assert (E2 : 2 ^ d = 2 ^ (d - k) * 2 ^ k)
      by (rewrite <- Z.pow_add_r by lia; f_equal; lia).
    assert (L : 2 ^ (d - 1 - k) <= q / 2 ^ k)
      by (apply Z.div_le_lower_bound; lia).
    assert (U : q / 2 ^ k < 2 ^ (d - k))
      by (apply Z.div_lt_upper_bound; lia).
    pose proof (Zdigits2_lower _ (d - 1 - k) ltac:(lia) L).
    assert (0 <= q / 2 ^ k) by (apply Z.div_pos; lia).
    pose proof (Zdigits2_upper (q / 2 ^ k) (d - k) ltac:(lia) ltac:(lia)).
    lia.
Qed.

Lemma shr_record_of_loc_m (q : Z) (l : location) : shr_m (shr_record_of_loc q l) = q.
Proof. destruct l as [| []]; reflexivity. Qed.

(** The first shift of [binary_round_aux]: the mantissa is brought to
    the exponent the format asks for, and its place is kept. *)
Lemma shr_fexp_located (q e : Z) (l : location) (N D : Z) :
  0 <= N -> 0 < D ->
  located (shr_record_of_loc q l) N D ->
  e <= fexp prec emax (Zdigits2 q + e) ->
  exists k,
    0 <= k /\
    snd (shr_fexp prec emax q e l) = e + k /\
    e + k = fexp prec emax (Zdigits2 q + e) /\
    located (fst (shr_fexp prec emax q e l)) N (2 ^ k * D) /\
    shr_m (fst (shr_fexp prec emax q e l)) = q / 2 ^ k /\
    fexp prec emax (Zdigits2 (q / 2 ^ k) + (e + k)) = e + k.
Proof.
  intros HN HD Hloc He.
  assert (Hq : q = N / D) by (destruct Hloc as [H _]; now rewrite shr_record_of_loc_m in H).
  assert (Hq0 : 0 <= q) by (subst q; apply Z.div_pos; lia).
  unfold shr_fexp, shr.
  remember (fexp prec emax (Zdigits2 q + e) - e) as k eqn:Ek.
  exists k. destruct k as [| p | p]; [| | lia]; cbn [fst snd].
  - rewrite Z.pow_0_r, Z.mul_1_l, Z.div_1_r, shr_record_of_loc_m.
    refine (conj _ (conj _ (conj _ (conj Hloc (conj eq_refl _))))); try lia.
    replace (e + 0) with e by lia. lia.
  - pose proof (iter_pos_shr_1_located p _ N D HN HD Hloc) as Hit.
    refine (conj _ (conj _ (conj _ (conj Hit (conj _ _))))); try lia.
    + destruct Hit as [Hm _]. rewrite Hm, Hq.
      rewrite Z.div_div by (try apply pow2_pos; lia). f_equal. lia.
    + rewrite Zdigits2_div_pow2 by lia.
      pose proof (Zdigits2_nonneg q). rewrite fexp_eq in *. lia.
Qed.

(** The second shift of [binary_round_aux] undoes the carry a rounding
    up may have produced. *)
Lemma shr_fexp_carry (m1 e1 M : Z) :
  0 <= m1 -> M = m1 \/ M = m1 + 1 -> M <> 0 ->
  fexp prec emax (Zdigits2 m1 + e1) = e1 ->
  exists j,
    (j = 0 \/ j = 1) /\
    snd (shr_fexp prec emax M e1 loc_Exact) = e1 + j /\
    shr_m (fst (shr_fexp prec emax M e1 loc_Exact)) * 2 ^ j = M /\
    fexp prec emax (Zdigits2 (shr_m (fst (shr_fexp prec emax M e1 loc_Exact))) + (e1 + j)) = e1 + j.
Proof.
  intros Hm1 HM HM0 Hcan.
  assert (HMpos : 0 < M) by lia.
  destruct (Zdigits2_bounds M HMpos) as [MLo MHi].
  pose proof (Zdigits2_nonneg m1) as Hd1.
  assert (Hd : Zdigits2 M = Zdigits2 m1 \/
               (Zdigits2 M = Zdigits2 m1 + 1 /\ M = 2 ^ Zdigits2 m1)).
  { destruct (Z.eq_dec m1 0) as [-> | Hne].
    - destruct HM as [-> | ->]; [lia |]. right. cbn. split; reflexivity.
    - destruct (Zdigits2_bounds m1 ltac:(lia)) as [Lo Hi].
      pose proof (Zdigits2_pos m1 ltac:(lia)) as Hd1'.
      destruct HM as [-> | ->]; [now left |].
      destruct (Z.eq_dec (m1 + 1) (2 ^ Zdigits2 m1)) as [E | E].
      + right. split; [| assumption].
        pose proof (Zdigits2_lower (m1 + 1) (Zdigits2 m1) Hd1 ltac:(lia)).
        assert (2 ^ (Zdigits2 m1 + 1) = 2 * 2 ^ Zdigits2 m1)
          by (rewrite Z.pow_add_r, Z.pow_1_r by lia; lia).
        pose proof (Zdigits2_upper (m1 + 1) (Zdigits2 m1 + 1) ltac:(lia) ltac:(lia)).
        lia.
      + left.
        pose proof (Zdigits2_upper (m1 + 1) (Zdigits2 m1) Hd1 ltac:(lia)).
        assert (2 ^ (Zdigits2 m1 - 1) <= m1 + 1) by lia.
        pose proof (Zdigits2_lower (m1 + 1) (Zdigits2 m1 - 1) ltac:(lia) ltac:(lia)).
        lia. }
  unfold shr_fexp, shr. cbn [shr_record_of_loc].
  remember (fexp prec emax (Zdigits2 M + e1) - e1) as k eqn:Ek.
  rewrite fexp_eq in Ek, Hcan.
  destruct Hd as [Hd | [Hd HMpow]].
  - assert (k = 0) by lia. subst k. rewrite H. exists 0. cbn [fst snd shr_m].
    rewrite fexp_eq. repeat split; try lia; auto.
  - destruct (Z.eq_dec k 0) as [K0 | K0].
    + rewrite K0. exists 0. cbn [fst snd shr_m].
      rewrite fexp_eq. repeat split; try lia; auto.
    + assert (K1 : k = 1) by lia. rewrite K1. exists 1.
      cbn [fst snd iter_pos].
      rewrite shr_1_nonneg by lia. cbn [shr_m].
      assert (Hd53 : Zdigits2 m1 = 53) by lia.
      rewrite HMpow, Hd53. change (2 ^ 53 / 2) with (2 ^ 52).
      change (Zdigits2 (2 ^ 52)) with 53.
      refine (conj (or_intror eq_refl) (conj eq_refl (conj eq_refl _))).
      rewrite fexp_eq. lia.
Qed.

Lemma binary_round_aux_located (sx : bool) (q e : Z) (l : location) (N D : Z) :
  0 <= N -> 0 < D ->
  located (shr_record_of_loc q l) N D ->
  e <= fexp prec emax (Zdigits2 q + e) ->
  exists m2 e2 k,
    0 <= m2 /\ 0 <= k /\ e2 = e + k /\
    2 * Z.abs (m2 * 2 ^ k * D - N) <= 2 ^ k * D /\
    fexp prec emax (Zdigits2 m2 + e2) = e2 /\
    e2 <= fexp prec emax (Zdigits2 q + e) + 1 /\
    binary_round_aux prec emax sx q e l = assemble sx m2 e2.
Proof.
  intros HN HD Hloc He.
  destruct (shr_fexp_located q e l N D HN HD Hloc He)
    as (k & Hk & He1 & Hfe & Hloc1 & Hm1 & Hcan).
  pose proof (pow2_pos k Hk) as Hp.
  assert (HD1 : 0 < 2 ^ k * D) by nia.
  destruct (round_nearest_even_located _ N (2 ^ k * D) HN HD1 Hloc1) as [Hhalf HM].
  unfold binary_round_aux.
  destruct (shr_fexp prec emax q e l) as [mrs1 e1] eqn:E1. cbn [fst snd] in *.
  set (M := round_nearest_even (shr_m mrs1) (loc_of_shr_record mrs1)) in *.
  assert (Hm1' : shr_m mrs1 = N / (2 ^ k * D)) by (destruct Hloc1 as [H _]; exact H).
  assert (Hm10 : 0 <= shr_m mrs1) by (rewrite Hm1'; apply Z.div_pos; lia).
  rewrite <- Hm1' in HM. subst e1.
  destruct (Z.eq_dec M 0) as [M0 | M0].
  - exists 0, (e + k), k. rewrite M0.
    assert (Hz : shr_m mrs1 = 0) by lia.
    rewrite Hm1, Hz in *. cbn [Zdigits2] in Hcan.
    unfold shr_fexp. cbn [Zdigits2 shr_record_of_loc].
    replace (fexp prec emax (0 + (e + k)) - (e + k)) with 0 by lia.
    cbn [shr shr_m assemble].
    refine (conj _ (conj Hk (conj eq_refl (conj _ (conj _ (conj _ eq_refl)))))); lia.
  - rewrite <- Hm1 in Hcan.
    destruct (shr_fexp_carry (shr_m mrs1) (e + k) M Hm10 ltac:(lia) M0 Hcan)
      as (j & Hj & He2 & Hm2 & Hcan2).
    destruct (shr_fexp prec emax M (e + k) loc_Exact) as [mrs2 e2] eqn:E2.
    cbn [fst snd] in *.
    exists (shr_m mrs2), e2, (k + j).
    assert (Hpj : 2 ^ (k + j) = 2 ^ k * 2 ^ j) by (apply Z.pow_add_r; lia).
    assert (Hj2 : 1 <= 2 ^ j) by (destruct Hj as [-> | ->]; cbn; lia).
    assert (Hm20 : 0 <= shr_m mrs2) by nia.
    refine (conj Hm20 (conj _ (conj _ (conj _ (conj _ (conj _ _)))))); try lia.
    + rewrite Hpj.
      replace (shr_m mrs2 * (2 ^ k * 2 ^ j) * D) with (M * 2 ^ k * D)
        by (rewrite <- Hm2; ring).
      nia.
    + rewrite He2, <- Z.add_assoc in *. exact Hcan2.
    + unfold assemble. destruct (shr_m mrs2); reflexivity.
Qed.

Lemma div_exponent_range (a b : positive) : -1074 <= div_exponent a b <= 0.
Proof. unfold div_exponent. rewrite fexp_eq. lia. Qed.

Lemma SFdiv_core_binary_int (a b : positive) :
  let e0 := div_exponent a b in
  let N := Zpos a * 2 ^ (- e0) in
  SFdiv_core_binary prec emax (Zpos a) 0 (Zpos b) 0
  = (N / Zpos b, e0, new_location (Zpos b) (N mod Zpos b)).
Proof.
  intros e0 N. pose proof (div_exponent_range a b) as He0. fold e0 in He0.
  unfold SFdiv_core_binary.
  replace (Z.min (fexp prec emax (Zdigits2 (Zpos a) + 0 - (Zdigits2 (Zpos b) + 0))) (0 - 0))
    with e0 by (unfold e0, div_exponent; rewrite !Z.add_0_r; reflexivity).
  assert (Hm : match 0 - 0 - e0 with
               | Z0 => Zpos a
               | Zpos _ => Z.shiftl (Zpos a) (0 - 0 - e0)
               | Zneg _ => 0
               end = N).
  { unfold N. replace (0 - 0 - e0) with (- e0) by lia.
    destruct (- e0) as [| p | p] eqn:E; [cbn; lia | | lia].
    rewrite Z.shiftl_mul_pow2 by lia. reflexivity. }
  rewrite Hm. unfold Z.div, Z.modulo.
  destruct (Z.div_eucl N (Zpos b)) as [q r]. reflexivity.
Qed.

(** The quotient computed for the rounding has enough digits: no digit
    the format keeps is missing. *)
Lemma div_quotient_digits (a b : positive) :
  let e0 := div_exponent a b in
  let N := Zpos a * 2 ^ (- e0) in
  e0 <= fexp prec emax (Zdigits2 (N / Zpos b) + e0).
Proof.
  intros e0 N. pose proof (div_exponent_range a b) as He0. fold e0 in He0.
  destruct (Zdigits2_bounds (Zpos a) ltac:(lia)) as [Alo Ahi].
  destruct (Zdigits2_bounds (Zpos b) ltac:(lia)) as [Blo Bhi].
  pose proof (Zdigits2_pos (Zpos a) ltac:(lia)) as Ha1.
  pose proof (Zdigits2_pos (Zpos b) ltac:(lia)) as Hb1.
  set (d1 := Zdigits2 (Zpos a)) in *. set (d2 := Zdigits2 (Zpos b)) in *.
  assert (Ee0 : e0 = Z.min (Z.max (d1 - d2 - 53) (-1074)) 0) by reflexivity.
  rewrite fexp_eq.
  destruct (Z.eq_dec e0 (-1074)) as [E | E]; [lia |].
  (* here the exponent is not the least one: the quotient has at least 53 digits *)
  set (j := d1 - d2 - 1 - e0).
  assert (Hj : 52 <= j) by lia.
  assert (HN : 2 ^ j * Zpos b <= N).
  { unfold N.
    assert (2 ^ j * 2 ^ d2 = 2 ^ (d1 - 1) * 2 ^ (- e0))
      by (rewrite <- !Z.pow_add_r by lia; f_equal; lia).
    pose proof (pow2_pos j ltac:(lia)). pose proof (pow2_pos (- e0) ltac:(lia)).
    nia. }
  assert (Hq : 2 ^ j <= N / Zpos b) by (apply Z.div_le_lower_bound; lia).
  pose proof (Zdigits2_lower _ j ltac:(lia) Hq). lia.
Qed.

Lemma div_quotient_digits_upper (a b : positive) :
  let e0 := div_exponent a b in
  let N := Zpos a * 2 ^ (- e0) in
  Zdigits2 (N / Zpos b) + e0 <= Z.max (Zdigits2 (Zpos a) - Zdigits2 (Zpos b) + 1) e0.
Proof.
  intros e0 N. pose proof (div_exponent_range a b) as He0. fold e0 in He0.
  destruct (Zdigits2_bounds (Zpos a) ltac:(lia)) as [Alo Ahi].
  destruct (Zdigits2_bounds (Zpos b) ltac:(lia)) as [Blo Bhi].
  pose proof (Zdigits2_pos (Zpos a) ltac:(lia)) as Ha1.
  pose proof (Zdigits2_pos (Zpos b) ltac:(lia)) as Hb1.
  set (d1 := Zdigits2 (Zpos a)) in *. set (d2 := Zdigits2 (Zpos b)) in *.
  pose proof (pow2_pos (- e0) ltac:(lia)) as Hp.
  assert (HN0 : 0 <= N) by (unfold N; nia).
  assert (Hq0 : 0 <= N / Zpos b) by (apply Z.div_pos; lia).
  destruct (Z_lt_le_dec (d1 - e0 - d2 + 1) 0) as [Hneg | Hnn].
  - (* the quotient is below one *)
    assert (N < Zpos b).
    { unfold N.
      assert (2 ^ d1 * 2 ^ (- e0) <= 2 ^ (d2 - 1)).
      { rewrite <- Z.pow_add_r by lia. apply Z.pow_le_mono_r; lia. }
      nia. }
    rewrite Z.div_small by lia. cbn [Zdigits2]. lia.
  - assert (Hq : N / Zpos b < 2 ^ (d1 - e0 - d2 + 1)).
    { apply Z.div_lt_upper_bound; [lia |].
      assert (2 ^ (d2 - 1) * 2 ^ (d1 - e0 - d2 + 1) = 2 ^ d1 * 2 ^ (- e0))
        by (rewrite <- !Z.pow_add_r by lia; f_equal; lia).
      pose proof (pow2_pos (d1 - e0 - d2 + 1) Hnn).
      unfold N. nia. }
    pose proof (Zdigits2_upper _ _ Hnn (conj Hq0 Hq)). lia.
Qed.

(** The division of two positive integers, as [SFdiv] performs it on
    mantissas of any width: the result is the float [m * 2^e] in
    canonical form, at most half a unit in the last place away from the
    quotient. *)
Lemma SFdiv_int_located (sx sy : bool) (a b : positive) :
  exists m e,
    0 <= m /\ -1074 <= e /\
    2 * Z.abs (m * 2 ^ (e + 1074) * Zpos b - Zpos a * 2 ^ 1074)
      <= 2 ^ (e + 1074) * Zpos b /\
    fexp prec emax (Zdigits2 m + e) = e /\
    e <= Z.max (Zdigits2 (Zpos a) - Zdigits2 (Zpos b) - 51) (-1073) /\
    SFdiv prec emax (S754_finite sx a 0) (S754_finite sy b 0)
    = assemble (xorb sx sy) m e.
Proof.
  pose proof (div_exponent_range a b) as He0.
  pose proof (div_quotient_digits a b) as Hdig.
  pose proof (div_quotient_digits_upper a b) as Hup.
  pose proof (SFdiv_core_binary_int a b) as Hcore.
  cbv zeta in Hdig, Hup, Hcore.
  set (e0 := div_exponent a b) in *.
  set (N := Zpos a * 2 ^ (- e0)) in *.
  pose proof (pow2_pos (- e0) ltac:(lia)) as Hp.
  assert (HN0 : 0 <= N) by (unfold N; nia).
  destruct (binary_round_aux_located (xorb sx sy) (N / Zpos b) e0
              (new_location (Zpos b) (N mod Zpos b)) N (Zpos b) HN0 ltac:(lia)
              (located_of_division N (Zpos b) HN0 ltac:(lia)) Hdig)
    as (m & e & k & Hm & Hk & He & Hhalf & Hcan & Hle & Hres).
  exists m, e.
  refine (conj Hm (conj _ (conj _ (conj Hcan (conj _ _))))); try lia.
  - (* rescale by 2^(1074 + e0) *)
    set (t := 1074 + e0).
    pose proof (pow2_pos t ltac:(lia)) as Ht.
    assert (E1 : 2 ^ (e + 1074) = 2 ^ k * 2 ^ t)
      by (rewrite <- Z.pow_add_r by lia; f_equal; lia).
    assert (E2 : Zpos a * 2 ^ 1074 = N * 2 ^ t).
    { unfold N. rewrite <- Z.mul_assoc, <- Z.pow_add_r by lia.
      do 2 f_equal. lia. }
    rewrite E1, E2.
    replace (m * (2 ^ k * 2 ^ t) * Zpos b - N * 2 ^ t)
      with ((m * 2 ^ k * Zpos b - N) * 2 ^ t) by ring.
    rewrite Z.abs_mul, (Z.abs_eq (2 ^ t)) by lia. nia.
  - rewrite fexp_eq in Hle. lia.
  - unfold SFdiv. rewrite Hcore. exact Hres.
Qed.

End Rounding.

(* ================================================================= *)
(** ** The division of two ints *)

Module Division.
Import Py Rounding.

Lemma Qpower2_split (e : Z) :
  -1074 <= e ->
  (Qpower 2 e == inject_Z (2 ^ (e + 1074)) / inject_Z (2 ^ 1074))%Q.
Proof.
  intros He.
  replace e with ((e + 1074) + - (1074)) at 1 by lia.
  rewrite Qpower_plus by (intro H; discriminate H).
  rewrite Qpower_opp, !Zpower_Qpower by lia.
  reflexivity.
Qed.

Lemma inject_Z_nonzero (z : Z) : z <> 0 -> ~ (inject_Z z == 0)%Q.
Proof. intros Hz E. unfold Qeq in E. cbn in E. lia. Qed.

(** The bound on integers, read on rationals. *)
Lemma half_ulp_Q (m e A B : Z) :
  0 < B -> -1074 <= e ->
  2 * Z.abs (m * 2 ^ (e + 1074) * B - A * 2 ^ 1074) <= 2 ^ (e + 1074) * B ->
  (Qabs (inject_Z m * Qpower 2 e - inject_Z A / inject_Z B) <= Qpower 2 e / 2)%Q.
Proof.
  intros HB He H.
  rewrite Qpower2_split by assumption.
  set (P := 2 ^ (e + 1074)) in *. set (S := 2 ^ 1074) in *.
  assert (HS : 0 < S) by (apply Z.pow_pos_nonneg; lia).
  assert (HP : 0 < P) by (apply Z.pow_pos_nonneg; lia).
  pose proof (inject_Z_nonzero S ltac:(lia)) as HSq.
  pose proof (inject_Z_nonzero B ltac:(lia)) as HBq.
  assert (E1 : (inject_Z m * (inject_Z P / inject_Z S) - inject_Z A / inject_Z B
                == inject_Z (m * P * B - A * S) / (inject_Z S * inject_Z B))%Q).
  { unfold Z.sub. rewrite inject_Z_plus, inject_Z_opp, !inject_Z_mult.
    field. split; assumption. }
  rewrite E1. unfold Qdiv at 1. rewrite Qabs_Qmult, Qabs_Qinv.
  assert (Hc : (0 < inject_Z S * inject_Z B)%Q).
  { rewrite <- inject_Z_mult. change 0%Q with (inject_Z 0).
    rewrite <- Zlt_Qlt. nia. }
  rewrite (Qabs_pos (inject_Z S * inject_Z B)) by (apply Qlt_le_weak, Hc).
  change (Qabs (inject_Z (m * P * B - A * S)))
    with (inject_Z (Z.abs (m * P * B - A * S))).
  apply Qle_shift_div_r; [exact Hc |].
  assert (E2 : (inject_Z P / inject_Z S / 2 * (inject_Z S * inject_Z B)
                == inject_Z (P * B) / 2)%Q).
  { rewrite inject_Z_mult. field. assumption. }
  rewrite E2. apply Qle_shift_div_l; [reflexivity |].
  change 2%Q with (inject_Z 2). rewrite <- inject_Z_mult, <- Zle_Qle. lia.
Qed.

Lemma ulp_pos (f : spec_float) : (0 < ulp f)%Q.
Proof. destruct f; apply Qpower_0_lt; reflexivity. Qed.

(** What [assemble] returns, when it is not an infinity. *)
Lemma assemble_finite (s : bool) (m e : Z) (A B : Z) :
  0 <= m -> 0 < B -> -1074 <= e ->
  fexp prec emax (Zdigits2 m + e) = e ->
  2 * Z.abs (m * 2 ^ (e + 1074) * B - A * 2 ^ 1074) <= 2 ^ (e + 1074) * B ->
  e <= emax - prec ->
  let f := assemble s m e in
  is_finite f = true /\ valid_binary prec emax f = true /\ sign_bit f = s /\
  (Qabs (inject_Z (cond_Zopp s 1) * float_value f
         - inject_Z A / inject_Z B) <= ulp f / 2)%Q.
Proof.
  intros Hm HB He Hcan Hhalf Hmax. unfold assemble.
  destruct m as [| p | p]; [| | lia].
  - (* the quotient rounds to zero *)
    rewrite fexp_eq in Hcan. cbn [Zdigits2] in Hcan.
    assert (Ee : e = -1074) by lia. subst e.
    cbn [is_finite valid_binary sign_bit float_value ulp].
    repeat split.
    pose proof (half_ulp_Q 0 (-1074) A B HB ltac:(lia) Hhalf) as HQ.
    assert (E0 : (inject_Z (cond_Zopp s 1) * 0 - inject_Z A / inject_Z B
                  == inject_Z 0 * Qpower 2 (-1074) - inject_Z A / inject_Z B)%Q)
      by (change (inject_Z 0) with 0%Q; ring).
    rewrite E0. exact HQ.
  - destruct (Z.leb_spec e (emax - prec)) as [_ | Hgt]; [| lia].
    cbn [is_finite valid_binary sign_bit float_value ulp].
    repeat split.
    + unfold bounded, canonical_mantissa.
      cbn [Zdigits2] in Hcan. rewrite Hcan, Z.eqb_refl.
      apply Z.leb_le. exact Hmax.
    + pose proof (half_ulp_Q (Zpos p) e A B HB He Hhalf) as HQ.
      assert (E0 : (inject_Z (cond_Zopp s 1) * (inject_Z (cond_Zopp s (Zpos p)) * Qpower 2 e)
                    == inject_Z (Zpos p) * Qpower 2 e)%Q).
      { rewrite Qmult_assoc, <- inject_Z_mult.
        replace (cond_Zopp s 1 * cond_Zopp s (Zpos p)) with (Zpos p)
          by (destruct s; cbn; lia).
        reflexivity. }
      rewrite E0. exact HQ.
Qed.

Lemma true_divide_pos (s : bool) (a b : positive) :
  match SFdiv prec emax (S754_finite s a 0) (S754_finite false b 0) with
  | S754_infinity _ =>
      1022 < Zdigits2 (Zpos a) - Zdigits2 (Zpos b)
  | f =>
      is_finite f = true /\ valid_binary prec emax f = true /\ sign_bit f = s /\
      (Qabs (inject_Z (cond_Zopp s 1) * float_value f
             - inject_Z (Zpos a) / inject_Z (Zpos b)) <= ulp f / 2)%Q
  end.
Proof.
  destruct (SFdiv_int_located s false a b)
    as (m & e & Hm & He & Hhalf & Hcan & Hle & Hres).
  rewrite Hres, xorb_false_r.
  destruct (Z_le_gt_dec e (emax - prec)) as [Hmax | Hmax].
  - pose proof (assemble_finite s m e (Zpos a) (Zpos b) Hm ltac:(lia) He Hcan Hhalf Hmax)
      as Hfin. cbv zeta in Hfin.
    destruct (assemble s m e); try exact Hfin.
    destruct Hfin as [Hf _]. discriminate Hf.
  - unfold assemble. destruct m as [| p | p]; [| | lia].
    + rewrite fexp_eq in Hcan. cbn [Zdigits2] in Hcan.
      unfold emax, prec in Hmax. lia.
    + destruct (Z.leb_spec e (emax - prec)); [lia |].
      unfold emax, prec in Hmax. lia.
Qed.

(** Python's true division of an int by a positive int: either the
    float nearest to the quotient, or an [OverflowError] when the
    numerator has at least 1023 binary digits more than the
    denominator. *)
Lemma true_divide_spec (n d : Z) :
  0 < d ->
  match true_divide n d with
  | Returns f =>
      is_finite f = true /\ valid_binary prec emax f = true /\
      sign_bit f = (n <? 0) /\
      (Qabs (float_value f - inject_Z n / inject_Z d) <= ulp f / 2)%Q
  | Raises e =>
      e = overflow /\ 1022 < Zdigits2 n - Zdigits2 d
  end.
Proof.
  intros Hd. destruct d as [| b | b]; try lia. unfold true_divide.
  change (Zpos b =? 0) with false. cbv iota.
  destruct n as [| a | a]; cbn [float_of_int].
  - cbn [SFdiv xorb is_finite valid_binary sign_bit float_value ulp].
    repeat split.
    assert (E : (0 - inject_Z 0 / inject_Z (Zpos b) == 0)%Q)
      by (change (inject_Z 0) with 0%Q; field; apply inject_Z_nonzero; lia).
    rewrite E. cbn [Qabs]. apply Qlt_le_weak.
    apply Qlt_shift_div_l; [reflexivity |].
    rewrite Qmult_0_l. apply (ulp_pos (S754_zero false)).
  - pose proof (true_divide_pos false a b) as H.
    destruct (SFdiv prec emax (S754_finite false a 0) (S754_finite false b 0));
      try (destruct H as (H1 & H2 & H3 & H4);
           refine (conj H1 (conj H2 (conj H3 _)));
           cbn [cond_Zopp] in H4; rewrite Qmult_1_l in H4; exact H4).
    split; [reflexivity | exact H].
  - pose proof (true_divide_pos true a b) as H.
    assert (Eneg : forall x : Q,
               (x - inject_Z (Zneg a) / inject_Z (Zpos b)
                == - (inject_Z (cond_Zopp true 1) * x
                      - inject_Z (Zpos a) / inject_Z (Zpos b)))%Q).
    { intros x. change (Zneg a) with (- Zpos a). rewrite inject_Z_opp.
      change (inject_Z (cond_Zopp true 1)) with (- (1))%Q.
      field. apply inject_Z_nonzero; lia. }
    destruct (SFdiv prec emax (S754_finite true a 0) (S754_finite false b 0));
      try (destruct H as (H1 & H2 & H3 & H4);
           refine (conj H1 (conj H2 (conj H3 _)));
           rewrite Eneg, Qabs_opp; exact H4).
    split; [reflexivity | exact H].
Qed.

End Division.

(* ================================================================= *)
(** ** The shape of the printed text *)

Module Text.
Import Py.








Lemma drop_minus_digits (cs : list ascii) :
  forallb is_digit cs = true -> drop_minus cs = cs.
Proof.
  destruct cs as [| c cs]; [reflexivity |]. cbn. intros H.
  apply andb_prop in H. destruct H as [Hc _].
  destruct (Ascii.eqb_spec c "-") as [-> | _]; [discriminate Hc | reflexivity].
Qed.












End Text.

Module Lines.
Import Py Bot Text.


End Lines.

(* ================================================================= *)
(** ** One call of [get_balance] *)

Module Call.
Import Py Bot.

Section Call.

Variable E : environment.

(** The body of the [try], branch by branch. *)
Lemma get_balance_try_cases (w : world) :
  get_balance_try E w =
  match result_field (exchange_at E w) with
  | Raises e => (Raises e, after_request E w)
  | Returns v =>
      if truthy v then
        match int16 v with
        | Raises e => (Raises e, after_request E w)
        | Returns wei =>
            match true_divide wei (10 ^ 18) with
            | Raises e => (Raises e, after_request E w)
            | Returns balance =>
                print E (success_line (stamp E (after_request E w)) (format_5f balance))
                        (after_request E w)
            end
        end
      else print E empty_line (after_request E w)
  end.
Proof.
  unfold get_balance_try, bind, lift, requests_post, result_field, exchange_at,
    after_request, time_strftime_HMS, localtime, ret, stamp.
  cbn [fst snd now].
  destruct (answer (network E (sent w) RPC_URL payload 10)) as [r | e]; [| reflexivity].
  destruct (json r) as [body | e]; [| reflexivity].
  destruct (get body "result") as [v | e]; [| reflexivity].
  destruct (truthy v); [| reflexivity].
  destruct (int16 v) as [wei | e]; [| reflexivity].
  destruct (true_divide wei (10 ^ 18)) as [balance | e]; reflexivity.
Qed.

(** A write to a console that accepts every text. *)
Lemma print_works (text : string) (w : world) :
  stdout_works E -> print E text w = (Returns tt, written text w).
Proof. intros H. unfold print. now rewrite H. Qed.

(** A write that fails leaves the world as it was. *)
Lemma print_raises (text : string) (w w' : world) (e : exn) :
  print E text w = (Raises e, w') -> w' = w.
Proof.
  unfold print. destruct (console E (List.length (stdout w)) text);
    [now intros [= _ <-] | discriminate].
Qed.

Lemma get_balance_returns (w w' : world) (a : unit) :
  get_balance_try E w = (Returns a, w') -> get_balance E w = (Returns a, w').
Proof. intros H. unfold get_balance, try_except_Exception. now rewrite H. Qed.

Lemma get_balance_handles (w w' : world) (e : exn) :
  get_balance_try E w = (Raises e, w') ->
  isinstance_Exception e = true ->
  get_balance E w = print E (failure_line (exn_str e)) w'.
Proof. intros H He. unfold get_balance, try_except_Exception. now rewrite H, He. Qed.

Lemma get_balance_propagates (w w' : world) (e : exn) :
  get_balance_try E w = (Raises e, w') ->
  isinstance_Exception e = false ->
  get_balance E w = (Raises e, w').
Proof. intros H He. unfold get_balance, try_except_Exception. now rewrite H, He. Qed.

Lemma says_empty (w : world) (v : value) :
  stdout_works E ->
  result_field (exchange_at E w) = Returns v -> truthy v = false ->
  says E w empty_line.
Proof.
  intros Hout Hv Ht. unfold says. apply get_balance_returns.
  now rewrite get_balance_try_cases, Hv, Ht, print_works.
Qed.

Lemma says_success (w : world) (v : value) (wei : Z) (balance : spec_float) :
  stdout_works E ->
  result_field (exchange_at E w) = Returns v -> truthy v = true ->
  int16 v = Returns wei -> true_divide wei (10 ^ 18) = Returns balance ->
  says E w (success_line (stamp E (after_request E w)) (format_5f balance)).
Proof.
  intros Hout Hv Ht Hi Hd. unfold says. apply get_balance_returns.
  now rewrite get_balance_try_cases, Hv, Ht, Hi, Hd, print_works.
Qed.

(** An exception leaves the [try] only once the request has been sent
    and with nothing printed. *)
Lemma raised_after_request (w w' : world) (e : exn) :
  get_balance_try E w = (Raises e, w') -> w' = after_request E w.
Proof.
  rewrite get_balance_try_cases.
  destruct (result_field (exchange_at E w)) as [v | e0]; [| now intros [= _ <-]].
  destruct (truthy v); [| apply print_raises].
  destruct (int16 v) as [wei | e0]; [| now intros [= _ <-]].
  destruct (true_divide wei (10 ^ 18)) as [balance | e0]; [apply print_raises |].
  now intros [= _ <-].
Qed.

Lemma says_failure (w w' : world) (e : exn) :
  stdout_works E ->
  get_balance_try E w = (Raises e, w') ->
  isinstance_Exception e = true ->
  says E w (failure_line (exn_str e)).
Proof.
  intros Hout H He. unfold says.
  rewrite (get_balance_handles w w' e H He), print_works by assumption.
  now rewrite (raised_after_request w w' e H).
Qed.

(** The exceptions that can leave the [try] when standard output
    accepts the text: those the library delivers, and four of the
    script's own operations, each an [Exception] with a text. *)
Lemma raised_origin (w w' : world) (e : exn) :
  stdout_works E ->
  get_balance_try E w = (Raises e, w') ->
  delivered (exchange_at E w) = Some e \/
  (isinstance_Exception e = true /\ exn_str e <> "").
Proof.
  intros Hout.
  rewrite get_balance_try_cases. unfold result_field, delivered.
  destruct (answer (exchange_at E w)) as [r | e0]; [| intros [= <- _]; now left].
  destruct (json r) as [body | e0]; [| intros [= <- _]; now left].
  destruct (get body "result") as [v | e0] eqn:G.
  - destruct (truthy v); [| rewrite print_works by assumption; discriminate].
    destruct (int16 v) as [wei | e0] eqn:I.
    + destruct (true_divide wei (10 ^ 18)) as [balance | e0] eqn:D;
        [rewrite print_works by assumption; discriminate |].
      intros [= <- _]. right. unfold true_divide in D.
      destruct (10 ^ 18 =? 0); [injection D as <-; split; [reflexivity | discriminate] |].
      destruct (SFdiv prec emax (float_of_int wei) (float_of_int (10 ^ 18)));
        try discriminate D.
      injection D as <-. split; [reflexivity | discriminate].
    + intros [= <- _]. right. unfold int16 in I.
      destruct v; try (injection I as <-; split; [reflexivity | discriminate]).
      destruct (parse_int16 s); [discriminate I |].
      injection I as <-. split; [reflexivity | discriminate].
  - intros [= <- _]. right. unfold get in G.
    destruct body; try (injection G as <-; split; [reflexivity | cbn; discriminate]).
    destruct (assoc "result" items); discriminate G.
Qed.

End Call.

End Call.

Module Calls.
Import Py Bot Call.

Lemma says_functional (E : environment) (w : world) (l1 l2 : string) :
  says E w l1 -> says E w l2 -> l1 = l2.
Proof.
  unfold says, written, record. intros H1 H2. rewrite H1 in H2.
  injection H2 as H2. apply app_inv_head in H2. now injection H2.
Qed.


Lemma stdout_after_request (E : environment) (w : world) :
  stdout (after_request E w) = stdout w.
Proof.
  unfold stdout, after_request, requests_post, record. cbn [snd log].
  rewrite flat_map_app. cbn. apply app_nil_r.
Qed.


(** When no interrupt arrives and standard output accepts the text, a
    call returns and has printed one text. *)
Lemma get_balance_says (E : environment) (w : world) :
  stdout_works E ->
  catchable (exchange_at E w) = true -> exists line, says E w line.
Proof.
  intros Hout Hc.
  destruct (get_balance_try E w) as [[[] | e] w'] eqn:T.
  - pose proof (get_balance_try_cases E w) as C. rewrite T in C.
    destruct (result_field (exchange_at E w)) as [v | e0]; [| discriminate C].
    destruct (truthy v).
    + destruct (int16 v) as [wei | e0]; [| discriminate C].
      destruct (true_divide wei (10 ^ 18)) as [balance | e0]; [| discriminate C].
      eexists. unfold says. rewrite (get_balance_returns E w w' tt T).
      rewrite print_works in C by assumption. exact C.
    + eexists. unfold says. rewrite (get_balance_returns E w w' tt T).
      rewrite print_works in C by assumption. exact C.
  - exists (failure_line (exn_str e)). apply (says_failure E w w' e Hout T).
    destruct (raised_origin E w w' e Hout T) as [D | [He _]]; [| exact He].
    unfold catchable in Hc. now rewrite D in Hc.
Qed.

(** One turn of the loop. *)
Lemma turn (E : environment) (w : world) :
  stdout_works E ->
  catchable (exchange_at E w) = true ->
  exists line,
    says E w line /\
    (get_balance E ;; time_sleep 10) w =
    (Returns tt,
     {| now := now w + took (exchange_at E w) + 1000 * 10;
        sent := S (sent w);
        log := (log w ++ [(now w, Posted RPC_URL payload 10);
                          (now w + took (exchange_at E w), Printed line);
                          (now w + took (exchange_at E w), Slept 10)])%list |}).
Proof.
  intros Hout Hc. destruct (get_balance_says E w Hout Hc) as [line H].
  exists line. split; [exact H |].
  unfold bind. rewrite H.
  unfold written, time_sleep, after_request, requests_post, record, exchange_at.
  cbn [snd now sent log]. rewrite <- !app_assoc. reflexivity.
Qed.

(** The loop run for one more turn is the loop run, then one turn. *)
Lemma while_True_succ (E : environment) (n : nat) (w : world) :
  while_True E (S n) w =
  match while_True E n w with
  | (Running, w') => while_True E 1 w'
  | died => died
  end.
Proof.
  revert w. induction n as [| n IH]; intros w.
  - cbn [while_True]. destruct ((get_balance E ;; time_sleep 10) w) as [[] ?]; reflexivity.
  - change (while_True E (S (S n)) w)
      with (match (get_balance E ;; time_sleep 10) w with
            | (Returns _, w') => while_True E (S n) w'
            | (Raises e, w') => (Died e, w')
            end).
    change (while_True E (S n) w)
      with (match (get_balance E ;; time_sleep 10) w with
            | (Returns _, w') => while_True E n w'
            | (Raises e, w') => (Died e, w')
            end).
    destruct ((get_balance E ;; time_sleep 10) w) as [[[] | e] w']; [apply IH | reflexivity].
Qed.

Lemma while_True_running (E : environment) (n : nat) :
  stdout_works E ->
  never_interrupted E ->
  forall w, fst (while_True E n w) = Running /\
            sent (snd (while_True E n w)) = (sent w + n)%nat.
Proof.
  intros Hout HE. induction n as [| n IH]; intros w.
  - cbn. split; [reflexivity | lia].
  - destruct (turn E w Hout (HE _ _ _ _)) as (line & _ & T).
    cbn [while_True]. rewrite T.
    destruct (IH {| now := now w + took (exchange_at E w) + 1000 * 10;
                    sent := S (sent w);
                    log := (log w ++ [(now w, Posted RPC_URL payload 10);
                                      (now w + took (exchange_at E w), Printed line);
                                      (now w + took (exchange_at E w), Slept 10)])%list |})
      as [R S']. split; [exact R |]. rewrite S'. cbn [sent]. lia.
Qed.

Lemma main_unfold (E : environment) (n : nat) (w : world) :
  stdout_works E ->
  main E n w = while_True E n (written banner w).
Proof. intros Hout. unfold main. now rewrite print_works. Qed.

(** What [n] turns add to the log. *)
Lemma while_True_events (E : environment) (n : nat) :
  stdout_works E ->
  never_interrupted E ->
  forall w, exists lines,
    List.length lines = n /\
    map snd (log (snd (while_True E n w))) = (map snd (log w) ++ turns lines)%list.
Proof.
  intros Hout HE. induction n as [| n IH]; intros w.
  - exists []. cbn. split; [reflexivity | now rewrite app_nil_r].
  - destruct (turn E w Hout (HE _ _ _ _)) as (line & _ & T).
    cbn [while_True]. rewrite T.
    match goal with |- context [while_True E n ?w1] =>
      destruct (IH w1) as (lines & L & Ev) end.
    exists (line :: lines). split; [cbn; now rewrite L |].
    rewrite Ev. cbn [log]. rewrite map_app, <- app_assoc. reflexivity.
Qed.

(** The clock, the count of requests and the starts of the polls after
    [n] turns of a process started at [t0]. *)
Lemma while_True_schedule (E : environment) (t0 : Z) (n : nat) :
  stdout_works E ->
  never_interrupted E ->
  let w := snd (main E n (boot t0)) in
  now w = start_time E t0 n /\ sent w = n /\
  poll_starts w = map (start_time E t0) (seq 0 n).
Proof.
  intros Hout HE. induction n as [| n IH].
  - rewrite main_unfold by assumption. cbn. repeat split.
  - cbv zeta in *. destruct IH as (Hnow & Hsent & Hstarts).
    rewrite main_unfold in * by assumption. rewrite while_True_succ.
    pose proof (while_True_running E n Hout HE (written banner (boot t0))) as [R _].
    destruct (while_True E n (written banner (boot t0))) as [st wn].
    cbn [fst snd] in *. subst st.
    destruct (turn E wn Hout (HE _ _ _ _)) as (line & _ & T).
    cbn [while_True]. rewrite T. cbn [snd now sent].
    unfold exchange_at. rewrite Hsent, Hnow. cbn [start_time].
    repeat split.
    unfold poll_starts in *. cbn [log]. rewrite flat_map_app, Hstarts.
    cbn [flat_map snd fst app]. rewrite seq_S, map_app. reflexivity.
Qed.

End Calls.

(* ================================================================= *)
(** ** Properties of the script *)

Module Properties.
Import Py Bot Division Text Lines Call Calls.

Lemma parse_int16_nonempty (R : string) (wei : Z) :
  parse_int16 R = Some wei -> truthy (PyStr R) = true.
Proof. destruct R; [discriminate | reflexivity]. Qed.

(** C1, as stated, fails: for the result ["0x1"] the amount the script
    computes is the float nearest to 1/10^18, which is not 1/10^18. *)
Lemma amount_of_0x1_is_not_the_quotient :
  let E := node_sends (reply (PyStr "0x1")) 250 in
  let balance := S754_finite false 5192296858534828 (-112) in
  result_field (exchange_at E (boot 0)) = Returns (PyStr "0x1") /\
  int16 (PyStr "0x1") = Returns 1 /\
  true_divide 1 (10 ^ 18) = Returns balance /\
  says E (boot 0) (success_line "07:00:00" (format_5f balance)) /\
  ~ exact_quotient balance 1 (10 ^ 18).
Proof.
  cbv zeta. repeat split; try (vm_compute; reflexivity).
  unfold exact_quotient, Qeq. vm_compute. discriminate.
Qed.

(** C1, amended: for every result string [R] that [int(R, 16)] accepts,
    with value [wei], the amount is Python's true division
    [wei / 10**18]: a binary64 float in canonical form at most half a
    unit in the last place away from the quotient [wei / 10^18] (equal
    to it only when the quotient is such a float), and the line, on a
    standard output that accepts it, shows this float with five
    decimals.  The one exception is a quotient too large for a float,
    possible only when [wei] has more than 1082 binary digits: the
    division then raises [OverflowError], which is reported as a
    failure. *)
Theorem balance_is_rounded_quotient
        (E : environment) (w : world) (R : string) (wei : Z) :
  stdout_works E ->
  result_field (exchange_at E w) = Returns (PyStr R) ->
  parse_int16 R = Some wei ->
  (exists balance,
      true_divide wei (10 ^ 18) = Returns balance /\
      valid_binary prec emax balance = true /\
      (Qabs (float_value balance - inject_Z wei / inject_Z (10 ^ 18))
       <= ulp balance / 2)%Q /\
      says E w (success_line (stamp E (after_request E w)) (format_5f balance)))
  \/
  (1082 < Zdigits2 wei /\
   true_divide wei (10 ^ 18) = Raises overflow /\
   says E w (failure_line "integer division result too large for a float")).
Proof.
  intros Hout Hres Hparse.
  assert (Hint : int16 (PyStr R) = Returns wei) by (unfold int16; now rewrite Hparse).
  pose proof (parse_int16_nonempty R wei Hparse) as Htruthy.
  pose proof (true_divide_spec wei (10 ^ 18) ltac:(reflexivity)) as Hdiv.
  destruct (true_divide wei (10 ^ 18)) as [balance | e] eqn:D.
  - left. exists balance. destruct Hdiv as (_ & Hvalid & _ & Hhalf).
    refine (conj eq_refl (conj Hvalid (conj Hhalf _))).
    exact (says_success E w _ wei balance Hout Hres Htruthy Hint D).
  - right. destruct Hdiv as [-> Hbig].
    change (Zdigits2 (10 ^ 18)) with 60 in Hbig.
    split; [lia |]. split; [reflexivity |].
    apply (says_failure E w (after_request E w) overflow Hout); [| reflexivity].
    now rewrite get_balance_try_cases, Hres, Htruthy, Hint, D.
Qed.

(** A run of the script at which the theorem applies. *)
Lemma balance_is_rounded_quotient_witness :
  let E := node_sends (reply (PyStr "0xde0b6b3a7640000")) 250 in
  stdout_works E /\
  result_field (exchange_at E (boot 0)) = Returns (PyStr "0xde0b6b3a7640000") /\
  parse_int16 "0xde0b6b3a7640000" = Some (10 ^ 18) /\
  ((exists balance,
       true_divide (10 ^ 18) (10 ^ 18) = Returns balance /\
       valid_binary prec emax balance = true /\
       (Qabs (float_value balance - inject_Z (10 ^ 18) / inject_Z (10 ^ 18))
        <= ulp balance / 2)%Q /\
       says E (boot 0) (success_line (stamp E (after_request E (boot 0)))
                                     (format_5f balance)))
   \/
   (1082 < Zdigits2 (10 ^ 18) /\
    true_divide (10 ^ 18) (10 ^ 18) = Raises overflow /\
    says E (boot 0) (failure_line "integer division result too large for a float"))).
Proof.
  cbv zeta. split; [intros k text; reflexivity |].
  split; [reflexivity |]. split; [reflexivity |].
  apply (balance_is_rounded_quotient
           (node_sends (reply (PyStr "0xde0b6b3a7640000")) 250) (boot 0)
           "0xde0b6b3a7640000" (10 ^ 18));
    [intros k text; reflexivity | reflexivity | reflexivity].
Defined.









(** C5, as stated, fails: [int(_, 16)] accepts a minus sign, and for the
    result ["-0x1"] the success branch is reached with a negative
    amount. *)
Lemma negative_result_gives_negative_amount :
  let E := node_sends (reply (PyStr "-0x1")) 250 in
  let balance := S754_finite true 5192296858534828 (-112) in
  result_field (exchange_at E (boot 0)) = Returns (PyStr "-0x1") /\
  int16 (PyStr "-0x1") = Returns (-1) /\
  true_divide (-1) (10 ^ 18) = Returns balance /\
  says E (boot 0) (success_line "07:00:00" "-0.00000") /\
  (float_value balance < 0)%Q.
Proof. cbv zeta. repeat split; vm_compute; reflexivity. Qed.

Lemma float_value_nonneg (f : spec_float) :
  sign_bit f = false -> (0 <= float_value f)%Q.
Proof.
  destruct f as [s | s | | s m e]; cbn [sign_bit float_value]; intros Hs;
    try apply Qle_refl.
  subst s. cbn [cond_Zopp]. apply Qmult_le_0_compat.
  - unfold Qle. cbn. lia.
  - apply Qpower_0_le. unfold Qle. cbn. lia.
Qed.

(** C5, amended: whenever the success branch is reached for a result
    string whose value [int(R, 16)] is not negative, the amount is not
    negative: the sign bit of the float is clear and its value is at
    least zero; on a standard output that accepts the line, that amount
    is what the success line shows. *)
Theorem amount_is_nonnegative
        (E : environment) (w : world) (R : string) (wei : Z) (balance : spec_float) :
  stdout_works E ->
  result_field (exchange_at E w) = Returns (PyStr R) ->
  parse_int16 R = Some wei ->
  0 <= wei ->
  true_divide wei (10 ^ 18) = Returns balance ->
  says E w (success_line (stamp E (after_request E w)) (format_5f balance)) /\
  sign_bit balance = false /\
  (0 <= float_value balance)%Q.
Proof.
  intros Hout Hres Hparse Hwei D.
  assert (Hint : int16 (PyStr R) = Returns wei) by (unfold int16; now rewrite Hparse).
  split.
  - exact (says_success E w _ wei balance Hout Hres
             (parse_int16_nonempty R wei Hparse) Hint D).
  - pose proof (true_divide_spec wei (10 ^ 18) ltac:(reflexivity)) as Hdiv.
    rewrite D in Hdiv. destruct Hdiv as (_ & _ & Hsign & _).
    assert (Hs : sign_bit balance = false).
    { rewrite Hsign. apply Z.ltb_ge. exact Hwei. }
    split; [exact Hs | exact (float_value_nonneg balance Hs)].
Qed.

(** A balance of one token, at which the theorem applies. *)
Lemma amount_is_nonnegative_witness :
  let E := node_sends (reply (PyStr "0xde0b6b3a7640000")) 250 in
  let one := S754_finite false 4503599627370496 (-52) in
  stdout_works E /\
  result_field (exchange_at E (boot 0)) = Returns (PyStr "0xde0b6b3a7640000") /\
  parse_int16 "0xde0b6b3a7640000" = Some (10 ^ 18) /\
  0 <= 10 ^ 18 /\
  true_divide (10 ^ 18) (10 ^ 18) = Returns one /\
  says E (boot 0) (success_line (stamp E (after_request E (boot 0))) (format_5f one)) /\
  sign_bit one = false /\
  (0 <= float_value one)%Q.
Proof.
  cbv zeta. split; [intros k text; reflexivity |].
  split; [reflexivity |]. split; [reflexivity |].
  split; [vm_compute; discriminate |]. split; [vm_compute; reflexivity |].
  apply (amount_is_nonnegative
           (node_sends (reply (PyStr "0xde0b6b3a7640000")) 250) (boot 0)
           "0xde0b6b3a7640000" (10 ^ 18) (S754_finite false 4503599627370496 (-52)));
    [intros k text; reflexivity | reflexivity | reflexivity
     | vm_compute; discriminate | vm_compute; reflexivity].
Defined.

Lemma failure_line_not_empty_line (text : string) : failure_line text <> empty_line.
Proof. unfold failure_line, empty_line. cbn. discriminate. Qed.

Lemma success_line_not_empty_line (stamp amount : string) :
  success_line stamp amount <> empty_line.
Proof. unfold success_line, empty_line. cbn. discriminate. Qed.

(** C6, as stated, fails: a result that is not a hexadecimal integer,
    here ["0xZZ"], is not reported as an empty response; the call behaves
    exactly as for a transport failure with the same text. *)
Lemma conversion_failure_reported_as_connection_failure :
  let E := node_sends (reply (PyStr "0xZZ")) 250 in
  let text := "invalid literal for int() with base 16: '0xZZ'" in
  result_field (exchange_at E (boot 0)) = Returns (PyStr "0xZZ") /\
  int16 (PyStr "0xZZ") = Raises (mk_exn ValueError text) /\
  says E (boot 0) (failure_line text) /\
  ~ says E (boot 0) empty_line /\
  get_balance E (boot 0)
  = get_balance (node_fails (mk_exn ConnectionError text) 250) (boot 0).
Proof.
  cbv zeta.
  assert (S : says (node_sends (reply (PyStr "0xZZ")) 250) (boot 0)
                (failure_line "invalid literal for int() with base 16: '0xZZ'"))
    by (vm_compute; reflexivity).
  repeat split; try (vm_compute; reflexivity); try exact S.
  intros S'. exact (failure_line_not_empty_line _ (says_functional _ _ _ _ S S')).
Qed.

(** C6, amended: a result string that is not empty and that [int(_, 16)]
    rejects makes the conversion raise [ValueError]; the handler of the
    [try] catches it like a transport failure and, on a standard output
    that accepts the text, prints the failure line with the text of the
    [ValueError], not the line of an empty response. *)
Theorem conversion_failure_is_caught (E : environment) (w : world) (R : string) :
  stdout_works E ->
  result_field (exchange_at E w) = Returns (PyStr R) ->
  R <> "" ->
  is_ascii R = true ->
  parse_int16 R = None ->
  says E w (failure_line ("invalid literal for int() with base 16: "
                          ++ substring 0 200 (repr R))) /\
  ~ says E w empty_line.
Proof.
  intros Hout Hres Hne _ Hparse.
  assert (Ht : truthy (PyStr R) = true) by (destruct R; [contradiction | reflexivity]).
  assert (S : says E w (failure_line ("invalid literal for int() with base 16: "
                                      ++ substring 0 200 (repr R)))).
  { apply (says_failure E w (after_request E w)
             (mk_exn ValueError ("invalid literal for int() with base 16: "
                                 ++ substring 0 200 (repr R))) Hout); [| reflexivity].
    rewrite get_balance_try_cases, Hres, Ht. unfold int16. now rewrite Hparse. }
  split; [exact S |].
  intros S'. exact (failure_line_not_empty_line _ (says_functional _ _ _ _ S S')).
Qed.

(** A result with digits that are not hexadecimal, at which the theorem
    applies. *)
Lemma conversion_failure_is_caught_witness :
  let E := node_sends (reply (PyStr "0xZZ")) 250 in
  stdout_works E /\
  result_field (exchange_at E (boot 0)) = Returns (PyStr "0xZZ") /\
  "0xZZ" <> "" /\
  is_ascii "0xZZ" = true /\
  parse_int16 "0xZZ" = None /\
  says E (boot 0) (failure_line ("invalid literal for int() with base 16: "
                                 ++ substring 0 200 (repr "0xZZ"))) /\
  ~ says E (boot 0) empty_line.
Proof.
  cbv zeta. split; [intros k text; reflexivity |].
  split; [reflexivity |]. split; [discriminate |].
  split; [reflexivity |]. split; [reflexivity |].
  apply (conversion_failure_is_caught
           (node_sends (reply (PyStr "0xZZ")) 250) (boot 0) "0xZZ");
    [intros k text; reflexivity | reflexivity | discriminate
     | reflexivity | reflexivity].
Defined.

(** C7: a result of ["0xde0b6b3a7640000"], which is 10^18 wei, is shown
    as ["1.00000"], and a result of ["0x1"], one wei, as ["0.00000"], on
    a standard output that accepts the lines. *)
Theorem sample_amounts (E1 E2 : environment) (w1 w2 : world) :
  stdout_works E1 ->
  stdout_works E2 ->
  result_field (exchange_at E1 w1) = Returns (PyStr "0xde0b6b3a7640000") ->
  result_field (exchange_at E2 w2) = Returns (PyStr "0x1") ->
  says E1 w1 (success_line (stamp E1 (after_request E1 w1)) "1.00000") /\
  says E2 w2 (success_line (stamp E2 (after_request E2 w2)) "0.00000").
Proof.
  intros Hout1 Hout2 H1 H2. split.
  - assert (D : true_divide (10 ^ 18) (10 ^ 18)
                = Returns (S754_finite false 4503599627370496 (-52)))
      by (vm_compute; reflexivity).
    assert (F : format_5f (S754_finite false 4503599627370496 (-52)) = "1.00000")
      by (vm_compute; reflexivity).
    rewrite <- F.
    exact (says_success E1 w1 _ (10 ^ 18) _ Hout1 H1 eq_refl eq_refl D).
  - assert (D : true_divide 1 (10 ^ 18)
                = Returns (S754_finite false 5192296858534828 (-112)))
      by (vm_compute; reflexivity).
    assert (F : format_5f (S754_finite false 5192296858534828 (-112)) = "0.00000")
      by (vm_compute; reflexivity).
    rewrite <- F.
    exact (says_success E2 w2 _ 1 _ Hout2 H2 eq_refl eq_refl D).
Qed.

(** Two nodes, one for each result, at which the theorem applies. *)
Lemma sample_amounts_witness :
  let E1 := node_sends (reply (PyStr "0xde0b6b3a7640000")) 250 in
  let E2 := node_sends (reply (PyStr "0x1")) 250 in
  stdout_works E1 /\
  stdout_works E2 /\
  result_field (exchange_at E1 (boot 0)) = Returns (PyStr "0xde0b6b3a7640000") /\
  result_field (exchange_at E2 (boot 0)) = Returns (PyStr "0x1") /\
  says E1 (boot 0) (success_line (stamp E1 (after_request E1 (boot 0))) "1.00000") /\
  says E2 (boot 0) (success_line (stamp E2 (after_request E2 (boot 0))) "0.00000").
Proof.
  cbv zeta. split; [intros k text; reflexivity |].
  split; [intros k text; reflexivity |].
  split; [reflexivity |]. split; [reflexivity |].
  apply (sample_amounts
           (node_sends (reply (PyStr "0xde0b6b3a7640000")) 250)
           (node_sends (reply (PyStr "0x1")) 250) (boot 0) (boot 0));
    [intros k text; reflexivity | intros k text; reflexivity
     | reflexivity | reflexivity].
Defined.

(** C10: whether a decoded result counts as present is decided by its
    truth value alone.  On a standard output that accepts the lines, the
    empty-response line is printed exactly when the result is falsy; the
    empty string, null, false and the number 0 are falsy and give that
    line, while the string ["0x0"] is truthy and gives a success line
    with the amount ["0.00000"]. *)
Theorem classification_by_truthiness (E : environment) (w : world) (v : value) :
  stdout_works E ->
  result_field (exchange_at E w) = Returns v ->
  (says E w empty_line <-> truthy v = false) /\
  (In v [PyStr ""; PyNone; PyBool false; PyInt 0] -> says E w empty_line) /\
  (v = PyStr "0x0" ->
   says E w (success_line (stamp E (after_request E w)) "0.00000")).
Proof.
  intros Hout Hres. split; [| split].
  - split; [| exact (says_empty E w v Hout Hres)].
    intros S. destruct (truthy v) eqn:Ht; [exfalso | reflexivity].
    destruct (get_balance_try E w) as [[[] | e] w'] eqn:T.
    + pose proof (get_balance_try_cases E w) as C. rewrite T, Hres, Ht in C.
      destruct (int16 v) as [wei | e0] eqn:Hi; [| discriminate C].
      destruct (true_divide wei (10 ^ 18)) as [balance | e0] eqn:D; [| discriminate C].
      pose proof (says_success E w v wei balance Hout Hres Ht Hi D) as S'.
      exact (success_line_not_empty_line _ _ (says_functional _ _ _ _ S' S)).
    + assert (He : isinstance_Exception e = true).
      { destruct (raised_origin E w w' e Hout T) as [D | [He _]]; [| exact He].
        unfold result_field in Hres. unfold delivered in D.
        destruct (answer (exchange_at E w)) as [r | e0]; [| discriminate Hres].
        destruct (json r); [discriminate D | discriminate Hres]. }
      pose proof (says_failure E w w' e Hout T He) as S'.
      exact (failure_line_not_empty_line _ (says_functional _ _ _ _ S' S)).
  - intros Hin. apply (says_empty E w v Hout Hres).
    cbn [In] in Hin.
    destruct Hin as [<- | [<- | [<- | [<- | []]]]]; reflexivity.
  - intros ->.
    assert (D : true_divide 0 (10 ^ 18) = Returns (S754_zero false))
      by (vm_compute; reflexivity).
    change "0.00000" with (format_5f (S754_zero false)).
    exact (says_success E w _ 0 _ Hout Hres eq_refl eq_refl D).
Qed.

(** A zero balance, at which the theorem applies. *)
Lemma classification_by_truthiness_witness :
  let E := node_sends (reply (PyStr "0x0")) 250 in
  stdout_works E /\
  result_field (exchange_at E (boot 0)) = Returns (PyStr "0x0") /\
  (says E (boot 0) empty_line <-> truthy (PyStr "0x0") = false) /\
  (In (PyStr "0x0") [PyStr ""; PyNone; PyBool false; PyInt 0] ->
   says E (boot 0) empty_line) /\
  (PyStr "0x0" = PyStr "0x0" ->
   says E (boot 0) (success_line (stamp E (after_request E (boot 0))) "0.00000")).
Proof.
  cbv zeta. split; [intros k text; reflexivity |]. split; [reflexivity |].
  apply (classification_by_truthiness
           (node_sends (reply (PyStr "0x0")) 250) (boot 0) (PyStr "0x0"));
    [intros k text; reflexivity | reflexivity].
Defined.

(** C8, as stated, fails: the process can end on its own.  The banner
    and every line start with a character outside ASCII and no [print] of
    the main block or of the handler is guarded: on a standard output
    that cannot encode them the very first [print] raises
    [UnicodeEncodeError] and the process dies before any request is
    sent, with no interrupt from outside. *)
Lemma process_can_die_on_its_own :
  let E := with_console (ascii_console cannot_encode_banner)
                        (node_sends (reply (PyStr "0x1")) 250) in
  never_interrupted E /\
  isinstance_Exception cannot_encode_banner = true /\
  main E 5 (boot 0) = (Died cannot_encode_banner, boot 0) /\
  sent (snd (main E 5 (boot 0))) = 0%nat.
Proof.
  cbv zeta. split; [intros k url body timeout; reflexivity |].
  repeat split; vm_compute; reflexivity.
Qed.

(** C8, amended: the main block prints its banner and then, turn after
    turn, calls [get_balance] and sleeps ten seconds; the loop has no
    exit of its own.  As long as no interrupt arrives from outside and
    standard output accepts what is printed, the process is still in the
    loop after any number [n] of turns, having sent [n] requests, and it
    performs a turn [n + 1]: one request, one printed line, one sleep of
    ten seconds. *)
Theorem loop_runs_forever (E : environment) (w : world) (n : nat) :
  stdout_works E ->
  never_interrupted E ->
  fst (main E n w) = Running /\
  sent (snd (main E n w)) = (sent w + n)%nat /\
  (exists lines,
      List.length lines = n /\
      map snd (log (snd (main E n w)))
      = (map snd (log w) ++ Printed banner :: turns lines)%list) /\
  (exists line,
      map snd (log (snd (main E (S n) w)))
      = (map snd (log (snd (main E n w)))
         ++ [Posted RPC_URL payload 10; Printed line; Slept 10])%list).
Proof.
  intros Hout HE. rewrite !main_unfold by assumption.
  set (w0 := written banner w).
  destruct (while_True_running E n Hout HE w0) as [R S0].
  split; [exact R |]. split; [exact S0 |]. split.
  - destruct (while_True_events E n Hout HE w0) as (lines & L & Ev).
    exists lines. split; [exact L |]. rewrite Ev.
    unfold w0, written, record. cbn [log].
    rewrite map_app, <- app_assoc. reflexivity.
  - rewrite while_True_succ.
    destruct (while_True E n w0) as [st wn]. cbn [fst snd] in *. subst st.
    destruct (turn E wn Hout (HE _ _ _ _)) as (line & _ & T).
    exists line. cbn [while_True]. rewrite T. cbn [snd log].
    rewrite map_app. reflexivity.
Qed.

(** A node that always answers, at which the theorem applies. *)
Lemma loop_runs_forever_witness :
  let E := node_sends (reply (PyStr "0xde0b6b3a7640000")) 250 in
  stdout_works E /\
  never_interrupted E /\
  fst (main E 3 (boot 0)) = Running /\
  sent (snd (main E 3 (boot 0))) = (sent (boot 0) + 3)%nat /\
  (exists lines,
      List.length lines = 3%nat /\
      map snd (log (snd (main E 3 (boot 0))))
      = (map snd (log (boot 0)) ++ Printed banner :: turns lines)%list) /\
  (exists line,
      map snd (log (snd (main E 4 (boot 0))))
      = (map snd (log (snd (main E 3 (boot 0))))
         ++ [Posted RPC_URL payload 10; Printed line; Slept 10])%list).
Proof.
  cbv zeta.
  assert (Ho : stdout_works (node_sends (reply (PyStr "0xde0b6b3a7640000")) 250))
    by (intros k text; reflexivity).
  assert (H : never_interrupted (node_sends (reply (PyStr "0xde0b6b3a7640000")) 250))
    by (intros k url body timeout; reflexivity).
  split; [exact Ho |]. split; [exact H |].
  apply (loop_runs_forever
           (node_sends (reply (PyStr "0xde0b6b3a7640000")) 250) (boot 0) 3 Ho H).
Defined.

(** C9, as stated, fails: with a node that takes 250 ms to answer, two
    polls in a row start 10.25 s apart, and with one that takes 3 s they
    start 13 s apart. *)
Lemma polls_are_not_ten_seconds_apart :
  poll_starts (snd (main (node_sends (reply (PyStr "0x1")) 250) 2 (boot 0)))
  = [0; 10250] /\
  poll_starts (snd (main (node_sends (reply (PyStr "0x1")) 3000) 2 (boot 0)))
  = [0; 13000] /\
  10250 - 0 <> 1000 * 10.
Proof. repeat split; vm_compute; try reflexivity; discriminate. Qed.

(** C9, amended: the sleep of ten seconds begins when [get_balance]
    returns, so, while the process runs (no interrupt arrives and
    standard output accepts what is printed), the start of a poll and
    the start of the next one are apart by the time the first request
    took plus ten seconds; the spacing follows the latency of the
    request. *)
Theorem polls_spaced_by_latency_plus_sleep
        (E : environment) (t0 : Z) (n k : nat) :
  stdout_works E ->
  never_interrupted E ->
  (S k < n)%nat ->
  nth (S k) (poll_starts (snd (main E n (boot t0)))) 0
  - nth k (poll_starts (snd (main E n (boot t0)))) 0
  = took (network E k RPC_URL payload 10) + 1000 * 10.
Proof.
  intros Hout HE Hk.
  destruct (while_True_schedule E t0 n Hout HE) as (_ & _ & ->).
  rewrite (nth_indep _ 0 (start_time E t0 0)) by (rewrite length_map, length_seq; lia).
  rewrite (nth_indep _ 0 (start_time E t0 0)) by (rewrite length_map, length_seq; lia).
  rewrite !map_nth, !seq_nth by lia.
  cbn [Nat.add start_time]. lia.
Qed.

(** Three polls of a node that takes a quarter of a second, at which
    the theorem applies. *)
Lemma polls_spaced_by_latency_plus_sleep_witness :
  let E := node_sends (reply (PyStr "0x1")) 250 in
  stdout_works E /\
  never_interrupted E /\
  (2 < 3)%nat /\
  nth 2 (poll_starts (snd (main E 3 (boot 0)))) 0
  - nth 1 (poll_starts (snd (main E 3 (boot 0)))) 0
  = took (network E 1%nat RPC_URL payload 10) + 1000 * 10.
Proof.
  cbv zeta.
  assert (Ho : stdout_works (node_sends (reply (PyStr "0x1")) 250))
    by (intros k text; reflexivity).
  assert (H : never_interrupted (node_sends (reply (PyStr "0x1")) 250))
    by (intros k url body timeout; reflexivity).
  split; [exact Ho |]. split; [exact H |]. split; [lia |].
  apply (polls_spaced_by_latency_plus_sleep
           (node_sends (reply (PyStr "0x1")) 250) 0 3 1 Ho H).
  lia.
Defined.

End Properties.

(* ================================================================= *)
(** ** What [int(_, 16)] reads *)

Module Parsing.
Import Py.

Lemma hex_digit_range (c : ascii) (d : Z) : hex_digit c = Some d -> 0 <= d < 16.
Proof.
  unfold hex_digit, digit_value. intros H.
  destruct ((48 <=? code c) && (code c <=? 57)) eqn:E1.
  - apply andb_prop in E1. destruct E1 as [L U].
    apply Z.leb_le in L, U.
    destruct (code c - 48 <? 16) eqn:E; [| discriminate H].
    injection H as <-. lia.
  - destruct ((97 <=? code c) && (code c <=? 122)) eqn:E2.
    + apply andb_prop in E2. destruct E2 as [L U]. apply Z.leb_le in L, U.
      destruct (Z.ltb_spec (code c - 87) 16); [| discriminate H].
      injection H as <-. lia.
    + destruct ((65 <=? code c) && (code c <=? 90)) eqn:E3; [| discriminate H].
      apply andb_prop in E3. destruct E3 as [L U]. apply Z.leb_le in L, U.
      destruct (Z.ltb_spec (code c - 55) 16); [| discriminate H].
      injection H as <-. lia.
Qed.

Lemma hex_digit_not_underscore (c : ascii) :
  is_hex_digit c = true -> Ascii.eqb c underscore = false.
Proof.
  intros H. destruct (Ascii.eqb_spec c underscore) as [-> | _];
    [discriminate H | reflexivity].
Qed.

(** The scan reads a row of digits to its end. *)
Lemma scan_digits_hex (ds : list ascii) :
  forallb is_hex_digit ds = true ->
  forall (k : nat) (acc : Z),
    scan_digits ds false k acc
    = Some (hex_number_from acc ds, (k + List.length ds)%nat, []).
Proof.
  induction ds as [| c ds IH]; intros H k acc.
  - cbn. now rewrite Nat.add_0_r.
  - cbn [forallb] in H. apply andb_prop in H. destruct H as [Hc Hds].
    cbn [scan_digits]. rewrite (hex_digit_not_underscore c Hc).
    unfold is_hex_digit in Hc.
    unfold hex_number_from. cbn [fold_left List.length].
    destruct (hex_digit c) as [d |]; [| discriminate Hc].
    rewrite (IH Hds). unfold hex_number_from.
    now rewrite Nat.add_succ_r.
Qed.

Lemma hex_number_from_bounds (ds : list ascii) :
  forall acc, 0 <= acc ->
    0 <= hex_number_from acc ds
    /\ hex_number_from acc ds < (acc + 1) * 16 ^ Z.of_nat (List.length ds).
Proof.
  induction ds as [| c ds IH]; intros acc Hacc.
  - cbn. lia.
  - unfold hex_number_from. cbn [fold_left List.length].
    set (d := match hex_digit c with Some d => d | None => 0 end).
    assert (Hd : 0 <= d < 16).
    { unfold d. destruct (hex_digit c) as [x |] eqn:E; [| lia].
      exact (hex_digit_range c x E). }
    destruct (IH (16 * acc + d) ltac:(lia)) as [L U].
    unfold hex_number_from in L, U. split; [exact L |].
    rewrite Nat2Z.inj_succ, Z.pow_succ_r by lia.
    assert (0 < 16 ^ Z.of_nat (List.length ds)) by (apply Z.pow_pos_nonneg; lia).
    nia.
Qed.

(** What [int(_, 16)] gives for a quantity. *)
Lemma parse_int16_quantity (ds : list ascii) :
  ds <> [] -> forallb is_hex_digit ds = true ->
  parse_int16 (quantity ds) = Some (hex_number ds).
Proof.
  intros Hne Hds. unfold parse_int16, quantity.
  cbn [list_ascii_of_string]. rewrite list_ascii_of_string_of_list_ascii.
  change (skip_space ("0"%char :: "x"%char :: ds)) with ("0"%char :: "x"%char :: ds).
  change (read_sign ("0"%char :: "x"%char :: ds))
    with (false, "0"%char :: "x"%char :: ds).
  destruct ds as [| c ds]; [contradiction |].
  cbn [forallb] in Hds. pose proof Hds as Hall.
  apply andb_prop in Hds. destruct Hds as [Hc _].
  pose proof (hex_digit_not_underscore c Hc) as Hu.
  assert (Hp : skip_prefix16 ("0"%char :: "x"%char :: c :: ds) = c :: ds).
  { cbn. now rewrite Hu. }
  rewrite Hp, Hu, (scan_digits_hex (c :: ds) Hall).
  reflexivity.
Qed.

Lemma existsb_skip_space (p : ascii -> bool) (l : list ascii) :
  existsb p l = false -> existsb p (skip_space l) = false.
Proof.
  induction l as [| c l IH]; [trivial |]. cbn [existsb skip_space]. intros H.
  apply orb_false_elim in H. destruct H as [Hc Hl].
  destruct (Py_ISSPACE c); [exact (IH Hl) |]. cbn [existsb]. now rewrite Hc, Hl.
Qed.

Lemma scan_digits_nonneg (s : list ascii) :
  forall (b : bool) (k : nat) (acc n : Z) (k' : nat) (rest : list ascii),
    scan_digits s b k acc = Some (n, k', rest) -> 0 <= acc -> 0 <= n.
Proof.
  induction s as [| c s IH]; intros b k acc n k' rest H Hacc.
  - cbn in H. destruct b; [discriminate H |]. now injection H as <- _ _.
  - cbn [scan_digits] in H.
    destruct (Ascii.eqb c underscore).
    + destruct b; [discriminate H |]. exact (IH _ _ _ _ _ _ H Hacc).
    + destruct (hex_digit c) as [d |] eqn:E.
      * pose proof (hex_digit_range c d E). apply (IH _ _ _ _ _ _ H). lia.
      * destruct b; [discriminate H |]. now injection H as <- _ _.
Qed.

End Parsing.

(* ================================================================= *)
(** ** The ends of the range of floats, and the rounding of the display *)

Module Limits.
Import Py Rounding Division.

(** A quotient above [2^1024] has no float: [SFdiv] gives an infinity. *)
Lemma SFdiv_int_overflow (a b : positive) :
  2 ^ 1024 * Zpos b < Zpos a ->
  exists s, SFdiv prec emax (S754_finite false a 0) (S754_finite false b 0)
            = S754_infinity s.
Proof.
  intros Hbig.
  destruct (SFdiv_int_located false false a b)
    as (m & e & Hm & He & Hhalf & Hcan & _ & Hres).
  rewrite Hres. rewrite fexp_eq in Hcan.
  assert (Hm53 : m < 2 ^ 53).
  { destruct (Z.eq_dec m 0) as [-> | Hne]; [reflexivity |].
    destruct (Zdigits2_bounds m ltac:(lia)) as [_ Hhi].
    assert (2 ^ Zdigits2 m <= 2 ^ 53) by (apply Z.pow_le_mono_r; lia).
    lia. }
  destruct (Z_le_gt_dec e 971) as [Hle | Hgt].
  - exfalso.
    set (W := 2 ^ 1074) in *. set (P := 2 ^ (e + 1074)) in *.
    assert (HW : 0 < W) by (apply pow2_pos; lia).
    assert (HP : 0 < P) by (apply pow2_pos; lia).
    assert (HPS : P <= 2 ^ 971 * W).
    { unfold P, W. rewrite <- Z.pow_add_r by lia. apply Z.pow_le_mono_r; lia. }
    assert (H1 : P * Zpos b <= 2 ^ 971 * (W * Zpos b)) by nia.
    assert (H2 : m * (P * Zpos b) + P * Zpos b <= 2 ^ 53 * (P * Zpos b)) by nia.
    assert (H3 : 2 ^ 1024 * (W * Zpos b) < Zpos a * W) by nia.
    rewrite <- (Z.mul_assoc m P (Zpos b)) in Hhalf.
    assert (H4 : 0 < P * Zpos b) by nia.
    change (2 ^ 1024) with (2 ^ 53 * 2 ^ 971) in H3.
    set (PB := P * Zpos b) in *. set (SB := W * Zpos b) in *.
    set (u := m * PB) in *. set (AS := Zpos a * W) in *.
    lia.
  - unfold assemble. destruct m as [| p | p]; [cbn [Zdigits2] in Hcan; lia | | lia].
    destruct (Z.leb_spec e (emax - prec)) as [Hle |]; [unfold emax, prec in Hle; lia |].
    now exists (xorb false false).
Qed.

Lemma true_divide_overflows (wei d : Z) :
  0 < d -> 2 ^ 1024 * d < wei -> true_divide wei d = Raises overflow.
Proof.
  intros Hd Hbig. assert (0 < 2 ^ 1024) by (apply pow2_pos; lia).
  destruct d as [| b | b]; try lia. destruct wei as [| a | a]; try lia.
  unfold true_divide. change (Zpos b =? 0) with false. cbv iota.
  cbn [float_of_int].
  destruct (SFdiv_int_overflow a b Hbig) as [s ->]. reflexivity.
Qed.

(** Rounding a quotient to the nearest integer misses it by at most one
    half. *)
Lemma round_half_even_div_near (a b : Z) :
  0 <= a -> 0 < b -> 2 * Z.abs (round_half_even_div a b * b - a) <= b.
Proof.
  intros Ha Hb. unfold round_half_even_div.
  pose proof (Z.div_mod a b ltac:(lia)) as E.
  pose proof (Z.mod_pos_bound a b Hb) as B.
  set (q := a / b) in *. set (r := a mod b) in *.
  destruct (Z.compare_spec (2 * r) b); [destruct (Z.even q) | |]; nia.
Qed.

Lemma Qabs_scaled (N a D : Z) :
  0 < D -> 2 * Z.abs (N * D - a) <= D ->
  (Qabs (inject_Z N - inject_Z a / inject_Z D) <= 1 # 2)%Q.
Proof.
  intros HD H.
  pose proof (inject_Z_nonzero D ltac:(lia)) as HDq.
  assert (E : (inject_Z N - inject_Z a / inject_Z D
               == inject_Z (N * D - a) / inject_Z D)%Q).
  { unfold Z.sub. rewrite inject_Z_plus, inject_Z_opp, inject_Z_mult.
    field. assumption. }
  rewrite E. unfold Qdiv. rewrite Qabs_Qmult, Qabs_Qinv.
  assert (Hc : (0 < inject_Z D)%Q)
    by (change 0%Q with (inject_Z 0); rewrite <- Zlt_Qlt; lia).
  rewrite (Qabs_pos (inject_Z D)) by (apply Qlt_le_weak, Hc).
  change (Qabs (inject_Z (N * D - a))) with (inject_Z (Z.abs (N * D - a))).
  apply Qle_shift_div_r; [exact Hc |].
  unfold Qle, Qmult, inject_Z. cbn [Qnum Qden]. lia.
Qed.

(** The count of hundred-thousandths shown for a float is the float
    times 10^5, rounded to the nearest integer. *)
Lemma scaled5_near (m : positive) (e : Z) :
  (Qabs (inject_Z (scaled5 m e)
         - float_value (S754_finite false m e) * inject_Z (10 ^ 5)) <= 1 # 2)%Q.
Proof.
  unfold scaled5, float_value. cbn [cond_Zopp].
  destruct (Z.leb_spec 0 e) as [He | He].
  - assert (E : (inject_Z (Zpos m * 2 ^ e * 10 ^ 5)
                 - inject_Z (Zpos m) * Qpower 2 e * inject_Z (10 ^ 5) == 0)%Q).
    { rewrite !inject_Z_mult, Zpower_Qpower by lia.
      change (inject_Z 2) with 2%Q.
      generalize (Qpower 2 e), (inject_Z (10 ^ 5)), (inject_Z (Zpos m)).
      intros x y z. ring. }
    rewrite E. discriminate.
  - set (D := 2 ^ (- e)).
    assert (HD : 0 < D) by (apply pow2_pos; lia).
    pose proof (inject_Z_nonzero D ltac:(lia)) as HDq.
    assert (E : (inject_Z (Zpos m) * Qpower 2 e * inject_Z (10 ^ 5)
                 == inject_Z (Zpos m * 10 ^ 5) / inject_Z D)%Q).
    { replace e with (- (- e)) at 1 by lia.
      rewrite Qpower_opp. change 2%Q with (inject_Z 2).
      rewrite <- Zpower_Qpower by lia. fold D.
      rewrite inject_Z_mult. field. assumption. }
    rewrite E. apply Qabs_scaled; [exact HD |].
    apply round_half_even_div_near; lia.
Qed.

End Limits.

(* ================================================================= *)
(** ** Further properties of the script *)

Module Further.
Import Py Bot Rounding Division Text Lines Call Calls Parsing Limits.

(** X1: when the decoded body is not a JSON object (an array, a string,
    a number, null), the lookup of [result] raises [AttributeError];
    on a standard output that accepts the text, the call prints the
    failure line naming the type of the body and returns normally. *)
Theorem body_without_get_is_failure
        (E : environment) (w : world) (r : response) (body : value) :
  stdout_works E ->
  answer (exchange_at E w) = Returns r ->
  json r = Returns body ->
  (forall items, body <> PyDict items) ->
  says E w (failure_line ("'" ++ type_name body ++ "' object has no attribute 'get'")).
Proof.
  intros Hout Ha Hj Hnd.
  apply (says_failure E w (after_request E w)
           (mk_exn AttributeError
              ("'" ++ type_name body ++ "' object has no attribute 'get'")) Hout);
    [| reflexivity].
  rewrite get_balance_try_cases. unfold result_field. rewrite Ha, Hj.
  destruct body; try reflexivity. exfalso. exact (Hnd items eq_refl).
Qed.

(** A node that answers with an empty array. *)
Lemma body_without_get_is_failure_witness :
  let E := node_sends (PyList []) 80 in
  let r := {| status_code := 200; json := Returns (PyList []) |} in
  stdout_works E /\
  answer (exchange_at E (boot 0)) = Returns r /\
  json r = Returns (PyList []) /\
  (forall items, PyList [] <> PyDict items) /\
  says E (boot 0) (failure_line "'list' object has no attribute 'get'").
Proof.
  cbv zeta. split; [intros k text; reflexivity |].
  split; [reflexivity |]. split; [reflexivity |].
  split; [intros items; discriminate |].
  apply (body_without_get_is_failure (node_sends (PyList []) 80) (boot 0)
           {| status_code := 200; json := Returns (PyList []) |} (PyList []));
    [intros k text; reflexivity | reflexivity | reflexivity
     | intros items; discriminate].
Defined.

(** X2: a result that is truthy but is not a string (a number other
    than zero, true, a list or an object with members) makes [int]
    raise [TypeError]; on a standard output that accepts the text, the
    call prints the failure line with that text and returns normally. *)
Theorem non_string_result_is_failure (E : environment) (w : world) (v : value) :
  stdout_works E ->
  result_field (exchange_at E w) = Returns v ->
  truthy v = true ->
  (forall s, v <> PyStr s) ->
  says E w (failure_line "int() can't convert non-string with explicit base").
Proof.
  intros Hout Hres Ht Hns.
  apply (says_failure E w (after_request E w)
           (mk_exn TypeError "int() can't convert non-string with explicit base") Hout);
    [| reflexivity].
  rewrite get_balance_try_cases, Hres, Ht.
  destruct v; try reflexivity. exfalso. exact (Hns s eq_refl).
Qed.

(** A node that sends the balance as a JSON number. *)
Lemma non_string_result_is_failure_witness :
  let E := node_sends (reply (PyInt 1000000000000000000)) 80 in
  stdout_works E /\
  result_field (exchange_at E (boot 0)) = Returns (PyInt 1000000000000000000) /\
  truthy (PyInt 1000000000000000000) = true /\
  (forall s, PyInt 1000000000000000000 <> PyStr s) /\
  says E (boot 0) (failure_line "int() can't convert non-string with explicit base").
Proof.
  cbv zeta. split; [intros k text; reflexivity |].
  split; [reflexivity |]. split; [reflexivity |].
  split; [intros s; discriminate |].
  apply (non_string_result_is_failure
           (node_sends (reply (PyInt 1000000000000000000)) 80) (boot 0)
           (PyInt 1000000000000000000));
    [intros k text; reflexivity | reflexivity | reflexivity
     | intros s; discriminate].
Defined.

(** X3: the HTTP status of the response is never looked at.  Two
    responses that decode to the same body, after the same time, on the
    same standard output, lead to the same outcome and the same output
    whatever their status codes. *)
Theorem status_code_is_ignored
        (E1 E2 : environment) (w : world) (r1 r2 : response) :
  answer (exchange_at E1 w) = Returns r1 ->
  answer (exchange_at E2 w) = Returns r2 ->
  json r1 = json r2 ->
  took (exchange_at E1 w) = took (exchange_at E2 w) ->
  utc_offset E1 = utc_offset E2 ->
  console E1 = console E2 ->
  get_balance E1 w = get_balance E2 w.
Proof.
  intros H1 H2 Hj Ht Hz Hc.
  assert (Hw : after_request E1 w = after_request E2 w).
  { unfold after_request, requests_post. cbn [snd].
    unfold exchange_at in Ht. now rewrite Ht. }
  assert (Hr : result_field (exchange_at E1 w) = result_field (exchange_at E2 w)).
  { unfold result_field. now rewrite H1, H2, Hj. }
  assert (Hs : stamp E1 (after_request E1 w) = stamp E2 (after_request E2 w)).
  { unfold stamp. now rewrite Hw, Hz. }
  assert (Hp : forall text w0, print E1 text w0 = print E2 text w0)
    by (intros text w0; unfold print; now rewrite Hc).
  assert (Hh : forall e w0,
             (if isinstance_Exception e
              then print E1 (failure_line (exn_str e)) w0 else (Raises e, w0))
             = (if isinstance_Exception e
                then print E2 (failure_line (exn_str e)) w0 else (Raises e, w0)))
    by (intros e w0; now rewrite Hp).
  assert (Hb : forall text w0,
             match print E1 text w0 with
             | (Returns a, w') => (Returns a, w')
             | (Raises e, w') =>
                 if isinstance_Exception e
                 then print E1 (failure_line (exn_str e)) w' else (Raises e, w')
             end
             = match print E2 text w0 with
               | (Returns a, w') => (Returns a, w')
               | (Raises e, w') =>
                   if isinstance_Exception e
                   then print E2 (failure_line (exn_str e)) w' else (Raises e, w')
               end).
  { intros text w0. rewrite Hp.
    destruct (print E2 text w0) as [[a | e] w']; [reflexivity | apply Hh]. }
  unfold get_balance, try_except_Exception.
  rewrite !get_balance_try_cases, Hr, Hs, Hw.
  destruct (result_field (exchange_at E2 w)) as [v | e]; [| apply Hh].
  destruct (truthy v); [| apply Hb].
  destruct (int16 v) as [wei | e]; [| apply Hh].
  destruct (true_divide wei (10 ^ 18)) as [balance | e]; [apply Hb | apply Hh].
Qed.

(** The same body under the status 200 and under the status 500. *)
Lemma status_code_is_ignored_witness :
  let body := reply (PyStr "0xde0b6b3a7640000") in
  let E1 := node_sends_status 200 body 250 in
  let E2 := node_sends_status 500 body 250 in
  let r1 := {| status_code := 200; json := Returns body |} in
  let r2 := {| status_code := 500; json := Returns body |} in
  answer (exchange_at E1 (boot 0)) = Returns r1 /\
  answer (exchange_at E2 (boot 0)) = Returns r2 /\
  json r1 = json r2 /\
  took (exchange_at E1 (boot 0)) = took (exchange_at E2 (boot 0)) /\
  utc_offset E1 = utc_offset E2 /\
  console E1 = console E2 /\
  get_balance E1 (boot 0) = get_balance E2 (boot 0).
Proof.
  cbv zeta. do 6 (split; [reflexivity |]).
  apply (status_code_is_ignored
           (node_sends_status 200 (reply (PyStr "0xde0b6b3a7640000")) 250)
           (node_sends_status 500 (reply (PyStr "0xde0b6b3a7640000")) 250)
           (boot 0)
           {| status_code := 200; json := Returns (reply (PyStr "0xde0b6b3a7640000")) |}
           {| status_code := 500; json := Returns (reply (PyStr "0xde0b6b3a7640000")) |});
    reflexivity.
Defined.

Lemma get_balance_interrupted (E : environment) (w : world) (e : exn) :
  delivered (exchange_at E w) = Some e ->
  isinstance_Exception e = false ->
  get_balance E w = (Raises e, after_request E w).
Proof.
  intros D He. apply get_balance_propagates; [| exact He].
  rewrite get_balance_try_cases. unfold result_field. unfold delivered in D.
  destruct (answer (exchange_at E w)) as [r | e0]; [| congruence].
  destruct (json r) as [body | e0]; congruence.
Qed.

Lemma while_True_interrupted (E : environment) (e : exn) (k : nat) :
  stdout_works E ->
  isinstance_Exception e = false ->
  forall (w : world) (n : nat),
    (forall j, (j < k)%nat ->
               catchable (network E (sent w + j) RPC_URL payload 10) = true) ->
    delivered (network E (sent w + k) RPC_URL payload 10) = Some e ->
    (k < n)%nat ->
    fst (while_True E n w) = Died e /\
    sent (snd (while_True E n w)) = S (sent w + k) /\
    List.length (stdout (snd (while_True E n w)))
    = (List.length (stdout w) + k)%nat.
Proof.
  intros Hout He. induction k as [| k IH]; intros w n Hc Hd Hn;
    (destruct n as [| n]; [lia |]); cbn [while_True]; unfold bind.
  - rewrite Nat.add_0_r in Hd.
    rewrite (get_balance_interrupted E w e Hd He). cbn [fst snd].
    rewrite stdout_after_request.
    unfold after_request, requests_post. cbn [snd sent].
    split; [reflexivity |]. split; lia.
  - pose proof (Hc 0%nat ltac:(lia)) as H0. rewrite Nat.add_0_r in H0.
    destruct (turn E w Hout H0) as (line & _ & T). unfold bind in T. rewrite T.
    match goal with |- context [while_True E n ?w1] => set (w' := w1) end.
    assert (Hs : sent w' = S (sent w)) by reflexivity.
    assert (Ho : stdout w' = (stdout w ++ [line])%list).
    { unfold stdout, w'. cbn [log]. rewrite flat_map_app. reflexivity. }
    destruct (IH w' n) as (R1 & R2 & R3).
    + intros j Hj. rewrite Hs.
      replace (S (sent w) + j)%nat with (sent w + S j)%nat by lia.
      apply Hc. lia.
    + rewrite Hs.
      replace (S (sent w) + k)%nat with (sent w + S k)%nat by lia.
      exact Hd.
    + lia.
    + split; [exact R1 |]. split; [rewrite R2, Hs; lia |].
      rewrite R3, Ho, length_app. cbn [List.length]. lia.
Qed.

(** X4: an interrupt is not caught.  When, on a standard output that
    accepts what is printed, the first [k] requests end with an answer or
    an ordinary failure and a [KeyboardInterrupt] (any exception outside
    [Exception]) arrives during the next one, the process dies with that
    exception: however long it is left to run, it has sent [k + 1]
    requests and printed the banner and [k] lines, and nothing for the
    interrupted poll. *)
Theorem interrupt_ends_the_loop
        (E : environment) (t0 : Z) (e : exn) (k n : nat) :
  stdout_works E ->
  (forall j, (j < k)%nat -> catchable (network E j RPC_URL payload 10) = true) ->
  delivered (network E k RPC_URL payload 10) = Some e ->
  isinstance_Exception e = false ->
  (k < n)%nat ->
  fst (main E n (boot t0)) = Died e /\
  sent (snd (main E n (boot t0))) = S k /\
  List.length (stdout (snd (main E n (boot t0)))) = S k.
Proof.
  intros Hout Hc Hd He Hn. rewrite main_unfold by assumption.
  destruct (while_True_interrupted E e k Hout He (written banner (boot t0)) n)
    as (R1 & R2 & R3); try assumption.
  repeat split; assumption.
Qed.

(** Two polls answered, the third one interrupted. *)
Lemma interrupt_ends_the_loop_witness :
  let E := node_interrupted_at 2 (reply (PyStr "0x1")) 250 in
  let e := mk_exn KeyboardInterrupt "" in
  stdout_works E /\
  (forall j, (j < 2)%nat -> catchable (network E j RPC_URL payload 10) = true) /\
  delivered (network E 2%nat RPC_URL payload 10) = Some e /\
  isinstance_Exception e = false /\
  (2 < 5)%nat /\
  fst (main E 5 (boot 0)) = Died e /\
  sent (snd (main E 5 (boot 0))) = 3%nat /\
  List.length (stdout (snd (main E 5 (boot 0)))) = 3%nat.
Proof.
  cbv zeta.
  assert (Hc : forall j, (j < 2)%nat ->
                 catchable (network (node_interrupted_at 2 (reply (PyStr "0x1")) 250)
                                    j RPC_URL payload 10) = true).
  { intros j Hj. destruct j as [| [| j]]; [reflexivity | reflexivity | lia]. }
  assert (Ho : stdout_works (node_interrupted_at 2 (reply (PyStr "0x1")) 250))
    by (intros k text; reflexivity).
  split; [exact Ho |].
  split; [exact Hc |]. split; [reflexivity |]. split; [reflexivity |].
  split; [lia |].
  apply (interrupt_ends_the_loop
           (node_interrupted_at 2 (reply (PyStr "0x1")) 250) 0
           (mk_exn KeyboardInterrupt "") 2 5 Ho Hc);
    [reflexivity | reflexivity | lia].
Defined.

(** X5: a quantity as a node writes it, [0x] followed by one or more
    hexadecimal digits in either case, is accepted by [int(_, 16)]; its
    value is the number the digits denote, which is not negative and
    below [16] to the number of digits. *)
Theorem quantity_is_read (ds : list ascii) :
  ds <> [] ->
  forallb is_hex_digit ds = true ->
  int16 (PyStr (quantity ds)) = Returns (hex_number ds) /\
  0 <= hex_number ds < 16 ^ Z.of_nat (List.length ds).
Proof.
  intros Hne Hds. split.
  - unfold int16. now rewrite (parse_int16_quantity ds Hne Hds).
  - destruct (hex_number_from_bounds ds 0 ltac:(lia)) as [L U].
    unfold hex_number. lia.
Qed.

(** The quantity [0xDe0b6B3a7640000], in mixed case. *)
Lemma quantity_is_read_witness :
  let ds := list_ascii_of_string "De0b6B3a7640000" in
  ds <> [] /\
  forallb is_hex_digit ds = true /\
  int16 (PyStr (quantity ds)) = Returns (hex_number ds) /\
  0 <= hex_number ds < 16 ^ Z.of_nat (List.length ds).
Proof.
  cbv zeta. split; [discriminate |]. split; [reflexivity |].
  apply (quantity_is_read (list_ascii_of_string "De0b6B3a7640000"));
    [discriminate | reflexivity].
Defined.

(** X6: a result string that [int(_, 16)] accepts and that holds no
    minus sign has a value that is not negative. *)
Theorem no_minus_no_negative (R : string) (wei : Z) :
  parse_int16 R = Some wei ->
  has_char "-" R = false ->
  0 <= wei.
Proof.
  unfold parse_int16, has_char. intros H Hm.
  pose proof (existsb_skip_space _ _ Hm) as Hs0.
  destruct (skip_space (list_ascii_of_string R)) as [| c rest] eqn:E0.
  - cbn in H. discriminate H.
  - cbn [existsb] in Hs0. apply orb_false_elim in Hs0. destruct Hs0 as [Hc _].
    assert (RS : read_sign (c :: rest) = (false, rest)
                 \/ read_sign (c :: rest) = (false, c :: rest)).
    { unfold read_sign. destruct (Ascii.eqb c "+"); [now left |].
      rewrite Ascii.eqb_sym, Hc. now right. }
    destruct RS as [RS | RS]; rewrite RS in H;
      match type of H with
      | match skip_prefix16 ?l with _ => _ end = _ =>
          destruct (skip_prefix16 l) as [| c2 s2]; [discriminate H |]
      end;
      (destruct (Ascii.eqb c2 underscore); [discriminate H |]);
      (destruct (scan_digits (c2 :: s2) false 0 0) as [[[n k] tl] |] eqn:SD;
       [| discriminate H]);
      pose proof (scan_digits_nonneg _ _ _ _ _ _ _ SD ltac:(lia)) as Hn;
      (destruct k; [discriminate H |]);
      (destruct (skip_space tl); [| discriminate H]);
      injection H as <-; exact Hn.
Qed.

(** The text of a quantity with spaces around it. *)
Lemma no_minus_no_negative_witness :
  parse_int16 " 0x1f " = Some 31 /\ has_char "-" " 0x1f " = false /\ 0 <= 31.
Proof.
  split; [reflexivity |]. split; [reflexivity |].
  apply (no_minus_no_negative " 0x1f " 31); reflexivity.
Defined.

(** X7: every quantity of at most 64 hexadecimal digits, that is every
    256-bit balance, is shown: the division does not overflow, the
    amount is not negative, and on a standard output that accepts the
    line the call prints a success line. *)
Theorem every_uint256_is_shown (E : environment) (w : world) (ds : list ascii) :
  stdout_works E ->
  result_field (exchange_at E w) = Returns (PyStr (quantity ds)) ->
  ds <> [] ->
  forallb is_hex_digit ds = true ->
  (List.length ds <= 64)%nat ->
  exists balance,
    true_divide (hex_number ds) (10 ^ 18) = Returns balance /\
    sign_bit balance = false /\
    says E w (success_line (stamp E (after_request E w)) (format_5f balance)).
Proof.
  intros Hout Hres Hne Hds Hlen.
  pose proof (parse_int16_quantity ds Hne Hds) as Hparse.
  destruct (hex_number_from_bounds ds 0 ltac:(lia)) as [L U].
  fold (hex_number ds) in L, U.
  assert (Hpow : 16 ^ Z.of_nat (List.length ds) <= 2 ^ 256).
  { change (2 ^ 256) with (16 ^ 64). apply Z.pow_le_mono_r; lia. }
  pose proof (Zdigits2_upper (hex_number ds) 256 ltac:(lia) ltac:(lia)) as Hdig.
  pose proof (true_divide_spec (hex_number ds) (10 ^ 18) ltac:(reflexivity)) as Hdiv.
  destruct (true_divide (hex_number ds) (10 ^ 18)) as [balance | e] eqn:D.
  - exists balance. destruct Hdiv as (_ & _ & Hsign & _).
    split; [reflexivity |]. split.
    + rewrite Hsign. apply Z.ltb_ge. exact L.
    + assert (Hi : int16 (PyStr (quantity ds)) = Returns (hex_number ds))
        by (unfold int16; now rewrite Hparse).
      exact (says_success E w _ (hex_number ds) balance Hout Hres eq_refl Hi D).
  - exfalso. destruct Hdiv as [_ Hbig].
    change (Zdigits2 (10 ^ 18)) with 60 in Hbig. lia.
Qed.

(** The largest 256-bit balance, sixty-four digits [f]. *)
Lemma every_uint256_is_shown_witness :
  let ds := repeat "f"%char 64 in
  let E := node_sends (reply (PyStr (quantity ds))) 250 in
  stdout_works E /\
  result_field (exchange_at E (boot 0)) = Returns (PyStr (quantity ds)) /\
  ds <> [] /\
  forallb is_hex_digit ds = true /\
  (List.length ds <= 64)%nat /\
  exists balance,
    true_divide (hex_number ds) (10 ^ 18) = Returns balance /\
    sign_bit balance = false /\
    says E (boot 0) (success_line (stamp E (after_request E (boot 0)))
                                  (format_5f balance)).
Proof.
  cbv zeta. split; [intros k text; reflexivity |].
  split; [reflexivity |]. split; [discriminate |].
  split; [reflexivity |]. split; [vm_compute; lia |].
  apply (every_uint256_is_shown
           (node_sends (reply (PyStr (quantity (repeat "f"%char 64)))) 250)
           (boot 0) (repeat "f"%char 64));
    [intros k text; reflexivity | reflexivity | discriminate
     | reflexivity | vm_compute; lia].
Defined.

(** X8: a result whose value exceeds [2^1024 * 10^18] has a quotient
    beyond every float: the division raises [OverflowError], and, on a
    standard output that accepts the text, the call prints the failure
    line with that text instead of an amount. *)
Theorem huge_result_is_failure (E : environment) (w : world) (R : string) (wei : Z) :
  stdout_works E ->
  result_field (exchange_at E w) = Returns (PyStr R) ->
  parse_int16 R = Some wei ->
  2 ^ 1024 * 10 ^ 18 < wei ->
  says E w (failure_line "integer division result too large for a float").
Proof.
  intros Hout Hres Hparse Hbig.
  apply (says_failure E w (after_request E w) overflow Hout); [| reflexivity].
  rewrite get_balance_try_cases, Hres.
  assert (Ht : truthy (PyStr R) = true) by (destruct R; [discriminate | reflexivity]).
  rewrite Ht. unfold int16. rewrite Hparse.
  now rewrite (true_divide_overflows wei (10 ^ 18) ltac:(reflexivity) Hbig).
Qed.

(** A quantity of 273 digits, [16^272]. *)
Lemma huge_result_is_failure_witness :
  let R := quantity ("1"%char :: repeat "0"%char 272) in
  let E := node_sends (reply (PyStr R)) 250 in
  stdout_works E /\
  result_field (exchange_at E (boot 0)) = Returns (PyStr R) /\
  parse_int16 R = Some (16 ^ 272) /\
  2 ^ 1024 * 10 ^ 18 < 16 ^ 272 /\
  says E (boot 0) (failure_line "integer division result too large for a float").
Proof.
  cbv zeta. split; [intros k text; reflexivity |].
  split; [reflexivity |]. split; [vm_compute; reflexivity |].
  split; [vm_compute; reflexivity |].
  apply (huge_result_is_failure
           (node_sends (reply (PyStr (quantity ("1"%char :: repeat "0"%char 272)))) 250)
           (boot 0) (quantity ("1"%char :: repeat "0"%char 272)) (16 ^ 272));
    [intros k text; reflexivity | reflexivity
     | vm_compute; reflexivity | vm_compute; reflexivity].
Defined.

(** X9: the script keeps no state between polls.  Two polls that decode
    the same result, at any two moments and on any two nodes, each on a
    standard output that accepts the text, print the same line, but for
    the time of day of a success line: the amount shown depends on the
    result alone. *)
Theorem same_result_same_report
        (E1 E2 : environment) (w1 w2 : world) (v : value) :
  stdout_works E1 ->
  stdout_works E2 ->
  result_field (exchange_at E1 w1) = Returns v ->
  result_field (exchange_at E2 w2) = Returns v ->
  exists line1 line2,
    says E1 w1 line1 /\ says E2 w2 line2 /\
    (line1 = line2 \/
     exists amount,
       line1 = success_line (stamp E1 (after_request E1 w1)) amount /\
       line2 = success_line (stamp E2 (after_request E2 w2)) amount).
Proof.
  intros O1 O2 H1 H2. destruct (truthy v) eqn:Ht.
  - destruct (int16 v) as [wei | e] eqn:Hi.
    + destruct (true_divide wei (10 ^ 18)) as [balance | e] eqn:D.
      * exists (success_line (stamp E1 (after_request E1 w1)) (format_5f balance)),
               (success_line (stamp E2 (after_request E2 w2)) (format_5f balance)).
        split; [exact (says_success E1 w1 v wei balance O1 H1 Ht Hi D) |].
        split; [exact (says_success E2 w2 v wei balance O2 H2 Ht Hi D) |].
        right. exists (format_5f balance). split; reflexivity.
      * assert (He : isinstance_Exception e = true).
        { pose proof (true_divide_spec wei (10 ^ 18) ltac:(reflexivity)) as S.
          rewrite D in S. destruct S as [-> _]. reflexivity. }
        exists (failure_line (exn_str e)), (failure_line (exn_str e)).
        split; [| split; [| now left]].
        -- apply (says_failure E1 w1 (after_request E1 w1) e O1); [| exact He].
           now rewrite get_balance_try_cases, H1, Ht, Hi, D.
        -- apply (says_failure E2 w2 (after_request E2 w2) e O2); [| exact He].
           now rewrite get_balance_try_cases, H2, Ht, Hi, D.
    + assert (He : isinstance_Exception e = true).
      { unfold int16 in Hi. destruct v; try (injection Hi as <-; reflexivity).
        destruct (parse_int16 s); [discriminate Hi | injection Hi as <-; reflexivity]. }
      exists (failure_line (exn_str e)), (failure_line (exn_str e)).
      split; [| split; [| now left]].
      * apply (says_failure E1 w1 (after_request E1 w1) e O1); [| exact He].
        now rewrite get_balance_try_cases, H1, Ht, Hi.
      * apply (says_failure E2 w2 (after_request E2 w2) e O2); [| exact He].
        now rewrite get_balance_try_cases, H2, Ht, Hi.
  - exists empty_line, empty_line.
    split; [exact (says_empty E1 w1 v O1 H1 Ht) |].
    split; [exact (says_empty E2 w2 v O2 H2 Ht) | now left].
Qed.

(** The same balance polled from a fast node and, an hour later, from a
    slow one. *)
Lemma same_result_same_report_witness :
  let v := PyStr "0xde0b6b3a7640000" in
  let E1 := node_sends (reply v) 250 in
  let E2 := node_sends (reply v) 3000 in
  stdout_works E1 /\
  stdout_works E2 /\
  result_field (exchange_at E1 (boot 0)) = Returns v /\
  result_field (exchange_at E2 (boot 3600000)) = Returns v /\
  exists line1 line2,
    says E1 (boot 0) line1 /\ says E2 (boot 3600000) line2 /\
    (line1 = line2 \/
     exists amount,
       line1 = success_line (stamp E1 (after_request E1 (boot 0))) amount /\
       line2 = success_line (stamp E2 (after_request E2 (boot 3600000))) amount).
Proof.
  cbv zeta. split; [intros k text; reflexivity |].
  split; [intros k text; reflexivity |].
  split; [reflexivity |]. split; [reflexivity |].
  apply (same_result_same_report
           (node_sends (reply (PyStr "0xde0b6b3a7640000")) 250)
           (node_sends (reply (PyStr "0xde0b6b3a7640000")) 3000)
           (boot 0) (boot 3600000) (PyStr "0xde0b6b3a7640000"));
    [intros k text; reflexivity | intros k text; reflexivity
     | reflexivity | reflexivity].
Defined.

(** X10: the amount is displayed rounded, not cut.  For a float that is
    not zero the text is the sign followed by a count [N] of
    hundred-thousandths, written with five decimals, and [N] is at most
    one half away from the size of the float times [10^5]. *)
Theorem display_is_rounded (s : bool) (m : positive) (e : Z) :
  exists N,
    format_5f (S754_finite s m e) = fixed5 s N /\
    0 <= N /\
    (Qabs (inject_Z N - float_value (S754_finite false m e) * inject_Z (10 ^ 5))
     <= 1 # 2)%Q.
Proof.
  exists (scaled5 m e). split; [reflexivity |]. split; [| apply scaled5_near].
  unfold scaled5. destruct (Z.leb_spec 0 e) as [He | He].
  - pose proof (pow2_pos e He). nia.
  - pose proof (pow2_pos (- e) ltac:(lia)) as HD.
    unfold round_half_even_div.
    assert (0 <= Zpos m * 10 ^ 5 / 2 ^ (- e)) by (apply Z.div_pos; lia).
    destruct (2 * ((Zpos m * 10 ^ 5) mod 2 ^ (- e)) ?= 2 ^ (- e));
      [destruct (Z.even _) | |]; lia.
Qed.

Lemma own_failures_are_exceptions (v : value) :
  (forall e, int16 v = Raises e -> isinstance_Exception e = true) /\
  (forall wei e, true_divide wei (10 ^ 18) = Raises e -> isinstance_Exception e = true) /\
  (forall e, get v "result" = Raises e -> isinstance_Exception e = true).
Proof.
  split; [| split].
  - intros e I. unfold int16 in I.
    destruct v; try (injection I as <-; reflexivity).
    destruct (parse_int16 s); [discriminate I | injection I as <-; reflexivity].
  - intros wei e D.
    pose proof (true_divide_spec wei (10 ^ 18) ltac:(reflexivity)) as S.
    rewrite D in S. destruct S as [-> _]. reflexivity.
  - intros e G. unfold get in G.
    destruct v; try (injection G as <-; reflexivity).
    destruct (assoc "result" items); discriminate G.
Qed.

(** X11: the [print] of the handler is not guarded.  When standard
    output rejects every write with the same exception (a pipe whose
    reader is gone), a call that no interrupt cuts short prints nothing and
    ends with that exception, whatever the node answered: the request
    is sent, the write of the line fails, and so does the write of the
    failure line. *)
Theorem unusable_stdout_ends_the_call (E : environment) (w : world) (e : exn) :
  (forall text, console E (List.length (stdout w)) text = Some e) ->
  catchable (exchange_at E w) = true ->
  get_balance E w = (Raises e, after_request E w) /\
  stdout (snd (get_balance E w)) = stdout w.
Proof.
  intros Hcons Hc.
  assert (Hp : forall text,
             print E text (after_request E w) = (Raises e, after_request E w)).
  { intros text. unfold print. now rewrite stdout_after_request, Hcons. }
  assert (Hh : forall e0, isinstance_Exception e0 = true ->
             (if isinstance_Exception e0
              then print E (failure_line (exn_str e0)) (after_request E w)
              else (Raises e0, after_request E w))
             = (Raises e, after_request E w)).
  { intros e0 H0. now rewrite H0, Hp. }
  assert (Hb : forall text,
             match print E text (after_request E w) with
             | (Returns a, w') => (Returns a, w')
             | (Raises e0, w') =>
                 if isinstance_Exception e0
                 then print E (failure_line (exn_str e0)) w' else (Raises e0, w')
             end = (Raises e, after_request E w)).
  { intros text. rewrite Hp.
    destruct (isinstance_Exception e); [apply Hp | reflexivity]. }
  assert (G : get_balance E w = (Raises e, after_request E w)).
  { unfold get_balance, try_except_Exception. rewrite get_balance_try_cases.
    unfold catchable, delivered in Hc. unfold result_field.
    destruct (answer (exchange_at E w)) as [r | e0]; [| exact (Hh e0 Hc)].
    destruct (json r) as [body | e0]; [| exact (Hh e0 Hc)].
    destruct (own_failures_are_exceptions body) as (_ & _ & Og).
    destruct (get body "result") as [v | e0]; [| exact (Hh e0 (Og e0 eq_refl))].
    destruct (own_failures_are_exceptions v) as (Oi & Od & _).
    destruct (truthy v); [| apply Hb].
    destruct (int16 v) as [wei | e0]; [| exact (Hh e0 (Oi e0 eq_refl))].
    destruct (true_divide wei (10 ^ 18)) as [balance | e0] eqn:D;
      [apply Hb | exact (Hh e0 (Od wei e0 D))]. }
  split; [exact G |]. rewrite G. cbn [snd]. apply stdout_after_request.
Qed.

(** A node that answers, and a standard output that is closed. *)
Lemma unusable_stdout_ends_the_call_witness :
  let E := with_console (closed_console broken_pipe)
                        (node_sends (reply (PyStr "0x1")) 250) in
  (forall text, console E (List.length (stdout (boot 0))) text = Some broken_pipe) /\
  catchable (exchange_at E (boot 0)) = true /\
  get_balance E (boot 0) = (Raises broken_pipe, after_request E (boot 0)) /\
  stdout (snd (get_balance E (boot 0))) = stdout (boot 0).
Proof.
  cbv zeta. split; [intros text; reflexivity |]. split; [reflexivity |].
  apply (unusable_stdout_ends_the_call
           (with_console (closed_console broken_pipe)
                         (node_sends (reply (PyStr "0x1")) 250))
           (boot 0) broken_pipe);
    [intros text; reflexivity | reflexivity].
Defined.

End Further.
